(** * facedoctor-whatsapp-api: the webhook relay of [app.py]

    A shallow embedding of [app.py]: the Flask handlers [webhook] and
    [api_send_message] and the helpers they call ([log_system_event],
    [enviar_mensagem_whatsapp], [get_or_create_lead], [salvar_mensagem]).

    The program is a sequence of calls to two outside services, the
    Supabase store and the Meta HTTP API, wrapped in [try/except].  It is
    modelled in a state-and-exception monad over a [world] that holds the
    four tables, the trace of HTTP calls and the lines printed.  What the
    outside services answer is not decided by the program; the world
    carries two scripts for it: [store_faults] says which of the coming
    [.execute()] calls raise, [net_script] what the coming HTTP posts
    answer.  The [GET] branch of [webhook] and [health_check] touch no
    state; they are modelled apart, as [webhook_get] and [health_check]. *)

From Stdlib Require Import ZArith List String Ascii Bool Lia.
Import ListNotations.
Local Open Scope string_scope.
Local Open Scope Z_scope.
Set Warnings "-register-all".

(** ** Python values

    [request.json] and the rows of the store are Python values built from
    JSON: [None], booleans, integers, strings, lists and dicts.  A dict is
    kept as the list of its items, looked up from the left.  Numbers with
    a fraction are not modelled. *)

Inductive json : Type :=
| JNull
| JBool (b : bool)
| JInt (z : Z)
| JStr (s : string)
| JArr (xs : list json)
| JObj (items : list (string * json)).

Module Py.

(** [==] on Python values built from JSON, structural.  The program
    compares only with strings, so [True == 1] plays no part. *)
Fixpoint eqb (a b : json) {struct a} : bool :=
  match a, b with
  | JNull, JNull => true
  | JBool x, JBool y => Bool.eqb x y
  | JInt x, JInt y => Z.eqb x y
  | JStr x, JStr y => String.eqb x y
  | JArr xs, JArr ys =>
      (fix all2 (xs ys : list json) {struct xs} : bool :=
         match xs, ys with
         | [], [] => true
         | x :: xs', y :: ys' => eqb x y && all2 xs' ys'
         | _, _ => false
         end) xs ys
  | JObj xs, JObj ys =>
      (fix all2 (xs ys : list (string * json)) {struct xs} : bool :=
         match xs, ys with
         | [], [] => true
         | (k, x) :: xs', (k', y) :: ys' =>
             String.eqb k k' && eqb x y && all2 xs' ys'
         | _, _ => false
         end) xs ys
  | _, _ => false
  end.

(** [bool(v)]: what [if v:] and [not v] test. *)
Definition truthy (v : json) : bool :=
  match v with
  | JNull => false
  | JBool b => b
  | JInt z => negb (z =? 0)
  | JStr s => negb (String.eqb s "")
  | JArr xs => match xs with [] => false | _ => true end
  | JObj items => match items with [] => false | _ => true end
  end.

(** The exceptions the program can meet. [KeyError] keeps the key;
    [HTTPError] is what [raise_for_status] raises and keeps the status of
    the response it carries; [ConnectionError] stands for every transport
    failure of [requests.post]; [APIError] is a failed [.execute()]. *)
Inductive key : Type := KStr (s : string) | KInt (z : Z).

Inductive exn : Type :=
| KeyError (k : key)
| IndexError
| TypeError
| AttributeError
| HTTPError (status : Z)
| ConnectionError
| APIError.

Inductive result (A : Type) : Type :=
| Ok (a : A)
| Raise (e : exn).
Arguments Ok {A} a.
Arguments Raise {A} e.

(** Items of a dict. *)
Fixpoint lookup (k : string) (items : list (string * json)) : option json :=
  match items with
  | [] => None
  | (k', v) :: rest => if String.eqb k k' then Some v else lookup k rest
  end.

Definition has_key (k : string) (items : list (string * json)) : bool :=
  match lookup k items with Some _ => true | None => false end.

(** [k in v] for a string [k]: key of a dict, element of a list,
    substring of a string; [TypeError] on anything else. *)
Definition contains (k : string) (v : json) : result bool :=
  match v with
  | JObj items => Ok (has_key k items)
  | JArr xs => Ok (existsb (eqb (JStr k)) xs)
  | JStr s => Ok (match String.index 0 k s with Some _ => true | None => false end)
  | _ => Raise TypeError
  end.

(** [v[k]] for a string [k]. *)
Definition getitem (v : json) (k : string) : result json :=
  match v with
  | JObj items =>
      match lookup k items with
      | Some x => Ok x
      | None => Raise (KeyError (KStr k))
      end
  | _ => Raise TypeError
  end.

(** [v[0]]. The keys of a dict built from JSON are strings, so [0] is
    never one of them. *)
Definition first (v : json) : result json :=
  match v with
  | JArr (x :: _) => Ok x
  | JArr [] => Raise IndexError
  | JStr (String c _) => Ok (JStr (String c EmptyString))
  | JStr EmptyString => Raise IndexError
  | JObj _ => Raise (KeyError (KInt 0))
  | _ => Raise TypeError
  end.

(** [v.get(k, default)]: only dicts have [get]. *)
Definition get (v : json) (k : string) (default : json) : result json :=
  match v with
  | JObj items =>
      match lookup k items with
      | Some x => Ok x
      | None => Ok default
      end
  | _ => Raise AttributeError
  end.

End Py.
Export Py(result, Ok, Raise, exn, key).

(** ** Text

    The program builds its messages with f-strings around values and
    exceptions.  A text is kept as the list of its pieces, so that no
    rendering of [str(e)] has to be fixed. *)

Inductive piece : Type :=
| Lit (s : string)
| StrOf (v : json)
| StrExn (e : exn).

Definition text : Type := list piece.

(** ** The store

    The four tables of the Supabase project.  Their schema is not part of
    the repository; a row keeps the columns the program reads or writes.
    A table is a list of rows in insertion order. *)

Record lead : Type := mkLead {
  lead_id : json;
  lead_name : json;
  lead_phone : json;
  lead_stage_id : json;
  lead_unread_count : json;
  lead_custom_fields : json;
  lead_last_message_at : json;
  lead_last_message_content : json
}.

Record stage : Type := mkStage {
  stage_id : json;
  stage_position : Z
}.

Record message : Type := mkMessage {
  msg_lead_id : json;
  msg_content : json;
  msg_direction : string;
  msg_type : string;
  msg_status : string
}.

(** The [metadata] argument of [log_system_event]: absent, the dict
    [{"response": str(getattr(e, 'response', 'No response'))}] of a failed
    send, or the dict [{"payload": data}] of a failed webhook. *)
Inductive metadata : Type :=
| NoMetadata
| ResponseOf (e : exn)
| Payload (data : json).

Record log_entry : Type := mkLog {
  log_level : string;
  log_source : string;
  log_message : text;
  log_metadata : metadata
}.

(** ** The messaging platform *)

Record request : Type := mkRequest {
  req_url : string;
  req_headers : list (string * string);
  req_json : json
}.

(** What one [requests.post] comes back with: a response of some status,
    or no response at all. *)
Inductive reply : Type :=
| Responded (status : Z)
| Unreachable.

(** ** The world *)

Record world : Type := mkWorld {
  leads : list lead;
  pipeline_stages : list stage;
  messages : list message;
  system_logs : list log_entry;
  lead_seq : Z;                 (* the key the store gives the next lead *)
  store_faults : list bool;     (* true: the next [.execute()] raises *)
  net_script : list reply;      (* answers to the coming posts *)
  net_calls : list request;     (* posts made so far *)
  stdout : list text            (* lines printed so far *)
}.

Definition with_leads (ls : list lead) (w : world) : world :=
  mkWorld ls (pipeline_stages w) (messages w) (system_logs w) (lead_seq w)
          (store_faults w) (net_script w) (net_calls w) (stdout w).

Definition with_messages (ms : list message) (w : world) : world :=
  mkWorld (leads w) (pipeline_stages w) ms (system_logs w) (lead_seq w)
          (store_faults w) (net_script w) (net_calls w) (stdout w).

Definition with_system_logs (es : list log_entry) (w : world) : world :=
  mkWorld (leads w) (pipeline_stages w) (messages w) es (lead_seq w)
          (store_faults w) (net_script w) (net_calls w) (stdout w).

Definition with_lead_seq (n : Z) (w : world) : world :=
  mkWorld (leads w) (pipeline_stages w) (messages w) (system_logs w) n
          (store_faults w) (net_script w) (net_calls w) (stdout w).

Definition with_store_faults (fs : list bool) (w : world) : world :=
  mkWorld (leads w) (pipeline_stages w) (messages w) (system_logs w) (lead_seq w)
          fs (net_script w) (net_calls w) (stdout w).

Definition with_net (script : list reply) (calls : list request) (w : world) : world :=
  mkWorld (leads w) (pipeline_stages w) (messages w) (system_logs w) (lead_seq w)
          (store_faults w) script calls (stdout w).

Definition with_stdout (out : list text) (w : world) : world :=
  mkWorld (leads w) (pipeline_stages w) (messages w) (system_logs w) (lead_seq w)
          (store_faults w) (net_script w) (net_calls w) out.

(** ** The monad: state, and exceptions that keep the state reached *)

Definition M (A : Type) : Type := world -> result A * world.

Definition ret {A} (a : A) : M A := fun w => (Ok a, w).

Definition bind {A B} (m : M A) (f : A -> M B) : M B :=
  fun w =>
    match m w with
    | (Ok a, w') => f a w'
    | (Raise e, w') => (Raise e, w')
    end.

Definition lift {A} (r : result A) : M A := fun w => (r, w).

(** [try: body except Exception as e: handler e]. *)
Definition try_except {A} (body : M A) (handler : exn -> M A) : M A :=
  fun w =>
    match body w with
    | (Ok a, w') => (Ok a, w')
    | (Raise e, w') => handler e w'
    end.

Declare Scope prog_scope.
Delimit Scope prog_scope with prog.
Notation "x <- m ;; k" := (bind m (fun x => k))
  (at level 61, m at next level, right associativity) : prog_scope.
Notation "m ;; k" := (bind m (fun _ => k))
  (at level 61, right associativity) : prog_scope.
Local Open Scope prog_scope.

Definition print (line : text) : M unit :=
  fun w => (Ok tt, with_stdout (stdout w ++ [line]) w).

(** ** The Supabase client

    Each function below is one query chain ending in [.execute()].  The
    call first asks [store_faults] whether it raises; a call that raises
    leaves the tables as they are. *)

Module Store.

Definition execute : M unit :=
  fun w =>
    match store_faults w with
    | [] => (Ok tt, w)
    | false :: rest => (Ok tt, with_store_faults rest w)
    | true :: rest => (Raise Py.APIError, with_store_faults rest w)
    end.

(** [table('system_logs').insert({...}).execute()] *)
Definition insert_log (e : log_entry) : M unit :=
  execute ;;
  fun w => (Ok tt, with_system_logs (system_logs w ++ [e]) w).

(** [table('leads').select("*").eq('phone', phone).execute()]; the
    result is [response.data]. *)
Definition select_leads_by_phone (phone : json) : M (list lead) :=
  execute ;;
  fun w => (Ok (filter (fun l => Py.eqb (lead_phone l) phone) (leads w)), w).

(** [order('position')]: ascending, rows of equal position in table order. *)
Fixpoint insert_by_position (s : stage) (sorted : list stage) : list stage :=
  match sorted with
  | [] => [s]
  | t :: rest =>
      if stage_position s <=? stage_position t
      then s :: t :: rest
      else t :: insert_by_position s rest
  end.

Fixpoint order_by_position (rows : list stage) : list stage :=
  match rows with
  | [] => []
  | s :: rest => insert_by_position s (order_by_position rest)
  end.

(** [table('pipeline_stages').select("id").order('position').limit(1).execute()];
    the result is the list of the [id]s of [stages_res.data]. *)
Definition select_first_stage_id : M (list json) :=
  execute ;;
  fun w => (Ok (map stage_id (firstn 1 (order_by_position (pipeline_stages w)))), w).

(** The dict [new_lead_data] of [get_or_create_lead]. *)
Record new_lead : Type := mkNewLead {
  nl_name : json;
  nl_phone : json;
  nl_stage_id : json;
  nl_unread_count : json;
  nl_custom_fields : json
}.

(** [table('leads').insert(new_lead_data).execute()]: the store gives the
    row its key and leaves the columns not sent empty; the result is
    [create_res.data], the row inserted. *)
Definition insert_lead (d : new_lead) : M (list lead) :=
  execute ;;
  fun w =>
    let row := mkLead (JInt (lead_seq w)) (nl_name d) (nl_phone d) (nl_stage_id d)
                      (nl_unread_count d) (nl_custom_fields d) JNull JNull in
    (Ok [row], with_lead_seq (lead_seq w + 1) (with_leads (leads w ++ [row]) w)).

(** [table('messages').insert(msg_data).execute()] *)
Definition insert_message (m : message) : M unit :=
  execute ;;
  fun w => (Ok tt, with_messages (messages w ++ [m]) w).

(** [table('leads').update({"last_message_at": "now()",
    "last_message_content": content}).eq('id', lead_id).execute()] *)
Definition touch (content : json) (l : lead) : lead :=
  mkLead (lead_id l) (lead_name l) (lead_phone l) (lead_stage_id l)
         (lead_unread_count l) (lead_custom_fields l) (JStr "now()") content.

Definition update_last_message (id content : json) : M unit :=
  execute ;;
  fun w =>
    (Ok tt,
     with_leads (map (fun l => if Py.eqb (lead_id l) id then touch content l else l)
                     (leads w)) w).

End Store.

(** ** The messaging platform's client *)

Module Requests.

(** [requests.post(url, json=payload, headers=headers)] *)
Definition post (r : request) : M reply :=
  fun w =>
    match net_script w with
    | [] => (Ok (Responded 200), with_net [] (net_calls w ++ [r]) w)
    | Responded st :: rest => (Ok (Responded st), with_net rest (net_calls w ++ [r]) w)
    | Unreachable :: rest => (Raise Py.ConnectionError, with_net rest (net_calls w ++ [r]) w)
    end.

(** [response.raise_for_status()]: raises for a status of 400 to 599. *)
Definition raise_for_status (r : reply) : M unit :=
  match r with
  | Responded st =>
      if (400 <=? st) && (st <? 600) then lift (Raise (Py.HTTPError st)) else ret tt
  | Unreachable => ret tt
  end.

End Requests.

(** ** The program *)

Section App.

(** The module's globals, read from the environment when it is loaded:
    [supabase] says whether the client was created (both [SUPABASE_URL]
    and [SUPABASE_KEY] set). *)
Variable supabase : bool.
Variable META_TOKEN : option string.
Variable META_PHONE_ID : option string.

(** [not v] for an environment variable: unset or empty. *)
Definition unset (v : option string) : bool :=
  match v with
  | None => true
  | Some s => String.eqb s ""
  end.

Definition env (v : option string) : string :=
  match v with Some s => s | None => "None" end.

Definition log_system_event (level source : string) (message : text)
                            (meta : metadata) : M unit :=
  if negb supabase then ret tt else
  try_except
    (Store.insert_log (mkLog level source message meta))
    (fun e => print [Lit "❌ Erro crítico ao logar no Supabase: "; StrExn e]).

Definition enviar_mensagem_whatsapp (numero texto : json) : M unit :=
  if unset META_TOKEN || unset META_PHONE_ID then
    let error_msg := "Credenciais da Meta não configuradas." in
    print [Lit "❌ "; Lit error_msg] ;;
    log_system_event "ERROR" "API_SEND" [Lit error_msg] NoMetadata
  else
    let url := "https://graph.facebook.com/v19.0/" ++ env META_PHONE_ID ++ "/messages" in
    let headers := [("Authorization", "Bearer " ++ env META_TOKEN);
                    ("Content-Type", "application/json")] in
    let payload := JObj [("messaging_product", JStr "whatsapp");
                         ("to", numero);
                         ("type", JStr "text");
                         ("text", JObj [("body", texto)])] in
    try_except
      (response <- Requests.post (mkRequest url headers payload) ;;
       Requests.raise_for_status response ;;
       print [Lit "✅ Mensagem enviada para "; StrOf numero])
      (fun e =>
         let error_msg := [Lit "Erro ao enviar no WhatsApp para "; StrOf numero;
                           Lit ": "; StrExn e] in
         print (Lit "❌ " :: error_msg) ;;
         log_system_event "ERROR" "API_SEND" error_msg (ResponseOf e)).

Definition get_or_create_lead (phone name : json) : M (option lead) :=
  if negb supabase then ret None else
  try_except
    (data <- Store.select_leads_by_phone phone ;;
     match data with
     | found :: _ => ret (Some found)
     | [] =>
         stages <- Store.select_first_stage_id ;;
         let first_stage_id := match stages with id :: _ => id | [] => JNull end in
         if negb (Py.truthy first_stage_id) then
           let error_msg := "Nenhuma etapa de funil encontrada para criar o lead." in
           print [Lit "❌ "; Lit error_msg] ;;
           log_system_event "ERROR" "SYSTEM" [Lit error_msg] NoMetadata ;;
           ret None
         else
           let new_lead_data :=
             Store.mkNewLead name phone first_stage_id (JInt 1) (JObj []) in
           created <- Store.insert_lead new_lead_data ;;
           print [Lit "✨ Novo lead criado: "; StrOf phone] ;;
           row <- lift (match created with
                        | r :: _ => Ok r
                        | [] => Raise Py.IndexError
                        end) ;;
           ret (Some row)
     end)
    (fun e =>
       print [Lit "❌ Erro no Supabase (Lead): "; StrExn e] ;;
       log_system_event "ERROR" "SYSTEM"
                        [Lit "Falha ao criar/buscar lead: "; StrExn e] NoMetadata ;;
       ret None).

Definition salvar_mensagem (lead_id content : json) (direction : string) : M unit :=
  if negb supabase || negb (Py.truthy lead_id) then ret tt else
  try_except
    (let msg_data :=
       mkMessage lead_id content direction "text"
                 (if String.eqb direction "inbound" then "read" else "sent") in
     Store.insert_message msg_data ;;
     (if String.eqb direction "inbound"
      then Store.update_last_message lead_id content
      else ret tt) ;;
     print [Lit "💾 Mensagem salva no banco para Lead ID: "; StrOf lead_id])
    (fun e =>
       print [Lit "❌ Erro ao salvar mensagem: "; StrExn e] ;;
       log_system_event "ERROR" "SYSTEM"
                        [Lit "Falha ao salvar mensagem: "; StrExn e] NoMetadata).

(** What a handler returns: [jsonify(body), status]. *)
Record response : Type := mkResponse {
  resp_body : json;
  resp_status : Z
}.

(** The [POST] branch of [webhook], from [data = request.json] on. *)
Definition webhook_post (data : json) : M response :=
  try_except
    (has_object <- lift (Py.contains "object" data) ;;
     has_entry <- (if has_object then lift (Py.contains "entry" data) else ret false) ;;
     if has_entry then
       entries <- lift (Py.getitem data "entry") ;;
       entry <- lift (Py.first entries) ;;
       entry_changes <- lift (Py.getitem entry "changes") ;;
       changes <- lift (Py.first entry_changes) ;;
       value <- lift (Py.getitem changes "value") ;;
       has_messages <- lift (Py.contains "messages" value) ;;
       if has_messages then
         value_messages <- lift (Py.getitem value "messages") ;;
         message <- lift (Py.first value_messages) ;;
         message_type <- lift (Py.getitem message "type") ;;
         if Py.eqb message_type (JStr "text") then
           numero_cliente <- lift (Py.getitem message "from") ;;
           message_text <- lift (Py.getitem message "text") ;;
           corpo_mensagem <- lift (Py.getitem message_text "body") ;;
           contacts <- lift (Py.get value "contacts" (JArr [JObj []])) ;;
           contact <- lift (Py.first contacts) ;;
           profile <- lift (Py.get contact "profile" (JObj [])) ;;
           nome_perfil <- lift (Py.get profile "name" (JStr "Cliente")) ;;
           print [Lit "\n📩 Nova mensagem de "; StrOf nome_perfil; Lit " (";
                  StrOf numero_cliente; Lit "): "; StrOf corpo_mensagem] ;;
           if supabase then
             lead <- get_or_create_lead numero_cliente nome_perfil ;;
             match lead with
             | Some l => salvar_mensagem (lead_id l) corpo_mensagem "inbound"
             | None => ret tt
             end
           else ret tt
         else ret tt
       else ret tt
     else ret tt)
    (fun e =>
       print [Lit "Erro ao processar webhook: "; StrExn e] ;;
       log_system_event "ERROR" "WEBHOOK_META"
                        [Lit "Falha no processamento: "; StrExn e] (Payload data)) ;;
  ret (mkResponse (JObj [("status", JStr "success")]) 200).

(** [api_send_message], from [data = request.json] on.  Nothing here is
    inside a [try]: an exception leaves the handler. *)
Definition api_send_message (data : json) : M response :=
  phone <- lift (Py.get data "phone" JNull) ;;
  text <- lift (Py.get data "text" JNull) ;;
  lead_id <- lift (Py.get data "lead_id" JNull) ;;
  if negb (Py.truthy phone) || negb (Py.truthy text) then
    ret (mkResponse (JObj [("error", JStr "Missing phone or text")]) 400)
  else
    enviar_mensagem_whatsapp phone text ;;
    (if Py.truthy lead_id then salvar_mensagem lead_id text "outbound" else ret tt) ;;
    ret (mkResponse (JObj [("status", JStr "sent")]) 200).

End App.

(** The acknowledgment of the inbound endpoint, and the acceptance of the
    outbound one. *)
Definition acknowledged : response :=
  mkResponse (JObj [("status", JStr "success")]) 200.

Definition accepted : response :=
  mkResponse (JObj [("status", JStr "sent")]) 200.

(** ** What [webhook] reads in the payload

    The walk through the payload that [webhook_post] makes before it
    touches the store, on its own: where the walk stops, or the exception
    it raises.  [webhook_post_reads] below shows that the handler is this
    walk followed by the store calls. *)

Inductive reading : Type :=
| NoEnvelope                       (* no 'object' or no 'entry' in data *)
| NoMessages                       (* no 'messages' in value *)
| OtherType (message_type : json)  (* message['type'] is not 'text' *)
| TextMessage (numero_cliente corpo_mensagem nome_perfil : json).

Definition and_then {A B} (r : result A) (f : A -> result B) : result B :=
  match r with
  | Ok a => f a
  | Raise e => Raise e
  end.

Notation "x <~ r ;; k" := (and_then r (fun x => k))
  (at level 61, r at next level, right associativity) : prog_scope.

Definition read_event (data : json) : result reading :=
  has_object <~ Py.contains "object" data ;;
  has_entry <~ (if has_object then Py.contains "entry" data else Ok false) ;;
  if has_entry then
    entries <~ Py.getitem data "entry" ;;
    entry <~ Py.first entries ;;
    entry_changes <~ Py.getitem entry "changes" ;;
    changes <~ Py.first entry_changes ;;
    value <~ Py.getitem changes "value" ;;
    has_messages <~ Py.contains "messages" value ;;
    if has_messages then
      value_messages <~ Py.getitem value "messages" ;;
      message <~ Py.first value_messages ;;
      message_type <~ Py.getitem message "type" ;;
      if Py.eqb message_type (JStr "text") then
        numero_cliente <~ Py.getitem message "from" ;;
        message_text <~ Py.getitem message "text" ;;
        corpo_mensagem <~ Py.getitem message_text "body" ;;
        contacts <~ Py.get value "contacts" (JArr [JObj []]) ;;
        contact <~ Py.first contacts ;;
        profile <~ Py.get contact "profile" (JObj []) ;;
        nome_perfil <~ Py.get profile "name" (JStr "Cliente") ;;
        Ok (TextMessage numero_cliente corpo_mensagem nome_perfil)
      else Ok (OtherType message_type)
    else Ok NoMessages
  else Ok NoEnvelope.

Definition is_text (r : reading) : bool :=
  match r with
  | TextMessage _ _ _ => true
  | _ => false
  end.

(** ** A payload cut down to its first message

    [first_only data] keeps the first entry of [data['entry']], in it the
    first change of ['changes'], and in that change's ['value'] the first
    message of ['messages']; everything else is as in [data]. *)

Fixpoint on_key (k : string) (f : json -> json) (items : list (string * json))
  : list (string * json) :=
  match items with
  | [] => []
  | (k', v) :: rest =>
      if String.eqb k k' then (k', f v) :: rest else (k', v) :: on_key k f rest
  end.

Definition in_dict (k : string) (f : json -> json) (v : json) : json :=
  match v with
  | JObj items => JObj (on_key k f items)
  | _ => v
  end.

Definition head_only (f : json -> json) (v : json) : json :=
  match v with
  | JArr (x :: _) => JArr [f x]
  | _ => v
  end.

Definition first_only (data : json) : json :=
  in_dict "entry"
    (head_only (in_dict "changes"
       (head_only (in_dict "value"
          (in_dict "messages" (head_only (fun message => message)))))))
    data.

(** The log with the payloads captured in its entries left out. *)
Definition without_payload (e : log_entry) : log_entry :=
  match log_metadata e with
  | Payload _ => mkLog (log_level e) (log_source e) (log_message e) (Payload JNull)
  | _ => e
  end.

(** ** Worlds and payloads used as examples *)

Module Examples.

Definition novo : stage := mkStage (JInt 5) 1.
Definition qualificado : stage := mkStage (JInt 7) 3.

Definition ana : lead :=
  mkLead (JInt 42) (JStr "Ana") (JStr "+15551234") (JInt 5) (JInt 1) (JObj [])
         JNull JNull.

(** A store with two stages and no lead. *)
Definition fresh : world :=
  mkWorld [] [qualificado; novo] [] [] 1 [] [] [] [].

(** A store with no stage at all. *)
Definition unstaged : world :=
  mkWorld [] [] [] [] 1 [] [] [] [].

(** A store that knows Ana; the platform will answer 500. *)
Definition with_ana : world :=
  mkWorld [ana] [qualificado; novo] [] [] 43 [] [Responded 500] [] [].

Definition message_of (fields : list (string * json)) : json := JObj fields.

Definition envelope (messages : list json) : json :=
  JObj [("object", JStr "whatsapp_business_account");
        ("entry",
         JArr [JObj [("id", JStr "1");
                     ("changes",
                      JArr [JObj [("field", JStr "messages");
                                  ("value",
                                   JObj [("contacts",
                                          JArr [JObj [("profile",
                                                       JObj [("name", JStr "Ana")])]]);
                                         ("messages", JArr messages)])]])]])].

Definition hello : json :=
  message_of [("from", JStr "+15551234"); ("type", JStr "text");
              ("text", JObj [("body", JStr "Hello")])].

Definition photo : json :=
  message_of [("from", JStr "+15551234"); ("type", JStr "image");
              ("image", JObj [("id", JStr "abc")])].

(** A message with no ['type']. *)
Definition untyped : json :=
  message_of [("from", JStr "+15551234");
              ("text", JObj [("body", JStr "Hello")])].

Definition send_fields : list (string * json) :=
  [("phone", JStr "+15551234"); ("text", JStr "Hi back"); ("lead_id", JInt 42)].

Definition send_request : json := JObj send_fields.

End Examples.

(** The two ends of [webhook_post]: what it does with a text message once
    read, and its [except] branch. *)
Definition deliver (supabase : bool) (numero_cliente corpo_mensagem nome_perfil : json)
  : M unit :=
  print [Lit "\n📩 Nova mensagem de "; StrOf nome_perfil; Lit " (";
         StrOf numero_cliente; Lit "): "; StrOf corpo_mensagem] ;;
  if supabase then
    lead <- get_or_create_lead supabase numero_cliente nome_perfil ;;
    match lead with
    | Some l => salvar_mensagem supabase (lead_id l) corpo_mensagem "inbound"
    | None => ret tt
    end
  else ret tt.

Definition on_failure (supabase : bool) (data : json) (e : exn) : M unit :=
  print [Lit "Erro ao processar webhook: "; StrExn e] ;;
  log_system_event supabase "ERROR" "WEBHOOK_META"
                   [Lit "Falha no processamento: "; StrExn e] (Payload data).

(** What the handler does after its walk through the payload. *)
Definition after_reading (supabase : bool) (data : json) (r : result reading)
  : M unit :=
  match r with
  | Ok (TextMessage numero corpo nome) =>
      try_except (deliver supabase numero corpo nome) (on_failure supabase data)
  | Ok _ => ret tt
  | Raise e => on_failure supabase data e
  end.

Definition map_result {A B} (f : A -> B) (r : result A) : result B :=
  match r with
  | Ok a => Ok (f a)
  | Raise e => Raise e
  end.

(** ** Properties of computations *)

(** [m] never lets an exception out. *)
Definition never_raises {A} (m : M A) : Prop :=
  forall w, exists a w', m w = (Ok a, w').

(** [m] takes every world to one related to it by [R]. *)
Definition frames (R : world -> world -> Prop) {A} (m : M A) : Prop :=
  forall w, R w (snd (m w)).

Definition same_messages (w w' : world) : Prop :=
  messages w' = messages w.

Definition same_records (w w' : world) : Prop :=
  leads w' = leads w /\ messages w' = messages w.

(** [m] leaves the leads and the messages of the store as they are. *)
Definition keeps_records {A} (m : M A) : Prop := frames same_records m.

(** The head of a list of stages is below everything after it. *)
Definition head_least (rows : list stage) : Prop :=
  match rows with
  | [] => True
  | h :: rest => forall s, In s rest -> stage_position h <= stage_position s
  end.

(** The send will fail: credentials unset, or the platform about to
    answer with an error status or not at all. *)
Definition delivery_fails (token phone_id : option string) (w : world) : bool :=
  unset token || unset phone_id ||
  match net_script w with
  | Responded st :: _ => (400 <=? st) && (st <? 600)
  | Unreachable :: _ => true
  | [] => false
  end.

(** The event was dropped: acknowledged, and no lead, message or log
    entry written. *)
Definition dropped_silently (supabase : bool) (data : json) (w : world) : Prop :=
  let (r, w') := webhook_post supabase data w in
  r = Ok acknowledged /\
  leads w' = leads w /\ messages w' = messages w /\ system_logs w' = system_logs w.

(** No lead of the store has this address. *)
Definition unknown (phone : json) (w : world) : Prop :=
  forall l, In l (leads w) -> Py.eqb (lead_phone l) phone = false.

(** The keys of the stages are proper keys: not null, zero or empty. *)
Definition stage_keys_set (w : world) : Prop :=
  forall s, In s (pipeline_stages w) -> Py.truthy (stage_id s) = true.

(** [st] is a stage of least position. *)
Definition least_stage (st : stage) (w : world) : Prop :=
  In st (pipeline_stages w) /\
  forall s, In s (pipeline_stages w) -> stage_position st <= stage_position s.

(** ** The verification handshake and the health check

    The [GET] branch of [webhook] and [health_check]: they read the query
    string and touch neither the store nor the network. *)

(** [request.args.get(k)]: the first value given for [k], if any. *)
Fixpoint args_get (k : string) (args : list (string * string)) : option string :=
  match args with
  | [] => None
  | (k', v) :: rest => if String.eqb k k' then Some v else args_get k rest
  end.

(** [v == s] for a query argument. *)
Definition is_string (v : option string) (s : string) : bool :=
  match v with
  | Some x => String.eqb x s
  | None => false
  end.

(** [os.environ.get("VERIFY_TOKEN", "face_doctor_segredo")] *)
Definition verify_token (environ : option string) : string :=
  match environ with
  | Some s => s
  | None => "face_doctor_segredo"
  end.

(** The [GET] branch of [webhook]: the body returned, [None] when the
    request carries no challenge, and the status. *)
Definition webhook_get (VERIFY_TOKEN : string) (args : list (string * string))
  : option string * Z :=
  let mode := args_get "hub.mode" args in
  let token := args_get "hub.verify_token" args in
  let challenge := args_get "hub.challenge" args in
  if negb (unset mode) && negb (unset token) then
    if is_string mode "subscribe" && is_string token VERIFY_TOKEN
    then (challenge, 200)
    else (Some "Token inválido", 403)
  else (Some "Hello World", 200).

Definition health_check : string * Z :=
  ("WhatsApp CRM Webhook is Running!", 200).

(** The refusal of the outbound endpoint. *)
Definition missing_fields : response :=
  mkResponse (JObj [("error", JStr "Missing phone or text")]) 400.

(** ** What the handlers keep of the store *)

(** The columns of a lead that only its creation sets. *)
Definition lead_core (l : lead) : json * json * json * json * json * json :=
  (lead_id l, lead_name l, lead_phone l, lead_stage_id l, lead_unread_count l,
   lead_custom_fields l).

(** [w'] is [w] grown: the stages are the same, the messages and the log
    are those of [w] with rows added at the end, and so are the leads,
    the rows of [w] keeping their core columns. *)
Definition extends (w w' : world) : Prop :=
  pipeline_stages w' = pipeline_stages w /\
  (exists added, messages w' = (messages w ++ added)%list) /\
  (exists added, system_logs w' = (system_logs w ++ added)%list) /\
  (exists added, map lead_core (leads w') = (map lead_core (leads w) ++ added)%list).

(** The exception a reply of the platform turns into, if any:
    [requests.post] raising, or [raise_for_status] on the response. *)
Definition send_error (r : reply) : option exn :=
  match r with
  | Responded st =>
      if (400 <=? st) && (st <? 600) then Some (Py.HTTPError st) else None
  | Unreachable => Some Py.ConnectionError
  end.

(** The request [enviar_mensagem_whatsapp] posts. *)
Definition send_request_of (token phone_id : string) (numero texto : json) : request :=
  mkRequest ("https://graph.facebook.com/v19.0/" ++ phone_id ++ "/messages")
            [("Authorization", "Bearer " ++ token);
             ("Content-Type", "application/json")]
            (JObj [("messaging_product", JStr "whatsapp");
                   ("to", numero);
                   ("type", JStr "text");
                   ("text", JObj [("body", texto)])]).

(** An envelope of one entry and one change around [value]. *)
Definition payload_of (value : json) : json :=
  JObj [("object", JStr "whatsapp_business_account");
        ("entry", JArr [JObj [("changes", JArr [JObj [("value", value)]])]])].

(** The row the store makes of the first message of an unknown address. *)
Definition first_lead (w : world) (phone name : json) (st : stage) : lead :=
  mkLead (JInt (lead_seq w)) name phone (stage_id st) (JInt 1) (JObj []) JNull JNull.

(** ** The message at [0][0][0]

    Where the platform puts a message: the value is
    [data['entry'][0]['changes'][0]['value']], the message is
    ['messages'][0] in it, and the sender's name is under
    ['contacts'][0]['profile']['name'] of the same value.  The functions
    below follow these keys and nothing else; they know no exception. *)

Definition field (k : string) (v : json) : option json :=
  match v with
  | JObj items => Py.lookup k items
  | _ => None
  end.

Definition head_of (v : json) : option json :=
  match v with
  | JArr (x :: _) => Some x
  | _ => None
  end.

Definition if_some {A B} (o : option A) (f : A -> option B) : option B :=
  match o with
  | Some a => f a
  | None => None
  end.

Notation "x <-- o ;; k" := (if_some o (fun x => k))
  (at level 61, o at next level, right associativity) : prog_scope.

Definition first_value (data : json) : option json :=
  object <-- field "object" data ;;
  entries <-- field "entry" data ;;
  entry <-- head_of entries ;;
  entry_changes <-- field "changes" entry ;;
  changes <-- head_of entry_changes ;;
  field "value" changes.

(** The sender, the text and the sender's name of the message at
    [0][0][0], when it is a text message with all of them. *)
Definition first_text_message (data : json) : option (json * json * json) :=
  value <-- first_value data ;;
  value_messages <-- field "messages" value ;;
  message <-- head_of value_messages ;;
  message_type <-- field "type" message ;;
  if Py.eqb message_type (JStr "text") then
    numero_cliente <-- field "from" message ;;
    message_text <-- field "text" message ;;
    corpo_mensagem <-- field "body" message_text ;;
    contacts <-- field "contacts" value ;;
    contact <-- head_of contacts ;;
    profile <-- field "profile" contact ;;
    nome_perfil <-- field "name" profile ;;
    Some (numero_cliente, corpo_mensagem, nome_perfil)
  else None.

(** A payload of two entries, the first of two changes, the first of
    these of two messages: Ana's "Hello" at [0][0][0], and a photo and
    two texts of other senders after it. *)
Module Batch.

Definition text_from (numero body : string) : json :=
  JObj [("from", JStr numero); ("type", JStr "text");
        ("text", JObj [("body", JStr body)])].

Definition change_of (name : string) (messages : list json) : json :=
  JObj [("field", JStr "messages");
        ("value",
         JObj [("contacts", JArr [JObj [("profile", JObj [("name", JStr name)])]]);
               ("messages", JArr messages)])].

Definition payload : json :=
  JObj [("object", JStr "whatsapp_business_account");
        ("entry",
         JArr [JObj [("id", JStr "1");
                     ("changes",
                      JArr [change_of "Ana" [Examples.hello; Examples.photo];
                            change_of "Bia" [text_from "+15550002" "Second"]])];
               JObj [("id", JStr "2");
                     ("changes",
                      JArr [change_of "Caio" [text_from "+15550003" "Third"]])]])].

End Batch.

(** * Proofs *)

(** ** Python values *)

Lemma eqb_refl : forall a, Py.eqb a a = true.
Proof.
  fix IH 1. intros [ | b | z | s | xs | items]; simpl.
  - reflexivity.
  - destruct b; reflexivity.
  - apply Z.eqb_refl.
  - apply String.eqb_refl.
  - induction xs as [|x xs IHxs]; [reflexivity|].
    rewrite IH. simpl. exact IHxs.
  - induction items as [|[k v] items IHi]; [reflexivity|].
    rewrite String.eqb_refl, IH. simpl. exact IHi.
Qed.

(** ** The monad *)

Section Laws.
Context {A B : Type}.

Lemma bind_ok (m : M A) (f : A -> M B) w a w' :
  m w = (Ok a, w') -> bind m f w = f a w'.
Proof. intros E. unfold bind. rewrite E. reflexivity. Qed.

Lemma bind_raise (m : M A) (f : A -> M B) w e w' :
  m w = (Raise e, w') -> bind m f w = (Raise e, w').
Proof. intros E. unfold bind. rewrite E. reflexivity. Qed.

Lemma bind_congr (m m' : M A) (f : A -> M B) w :
  m w = m' w -> bind m f w = bind m' f w.
Proof. intros E. unfold bind. rewrite E. reflexivity. Qed.

Lemma try_ok (m : M A) h w a w' :
  m w = (Ok a, w') -> try_except m h w = (Ok a, w').
Proof. intros E. unfold try_except. rewrite E. reflexivity. Qed.

Lemma try_raise (m : M A) h w e w' :
  m w = (Raise e, w') -> try_except m h w = h e w'.
Proof. intros E. unfold try_except. rewrite E. reflexivity. Qed.

Lemma try_lift (r : result A) (f : A -> M B) h w :
  try_except (bind (lift r) f) h w =
  match r with
  | Ok a => try_except (f a) h w
  | Raise e => h e w
  end.
Proof. destruct r; reflexivity. Qed.

Lemma try_ret (a : A) (f : A -> M B) h w :
  try_except (bind (ret a) f) h w = try_except (f a) h w.
Proof. reflexivity. Qed.

Lemma never_raises_ret (a : A) : never_raises (ret a).
Proof. intros w. exists a, w. reflexivity. Qed.

Lemma never_raises_bind (m : M A) (f : A -> M B) :
  never_raises m -> (forall a, never_raises (f a)) -> never_raises (bind m f).
Proof.
  intros Hm Hf w. destruct (Hm w) as (a & w1 & E).
  destruct (Hf a w1) as (b & w2 & E2).
  exists b, w2. rewrite (bind_ok _ _ _ _ _ E). exact E2.
Qed.

Lemma never_raises_try (m : M A) h :
  (forall e, never_raises (h e)) -> never_raises (try_except m h).
Proof.
  intros Hh w. unfold try_except.
  destruct (m w) as [[a|e] w1].
  - exists a, w1. reflexivity.
  - apply Hh.
Qed.

Lemma try_never_raises (m : M A) h w :
  never_raises m -> try_except m h w = m w.
Proof.
  intros Hm. destruct (Hm w) as (a & w1 & E).
  rewrite (try_ok _ _ _ _ _ E). symmetry. exact E.
Qed.

End Laws.

Section Frames.
Variable R : world -> world -> Prop.
Hypothesis R_refl : forall w, R w w.
Hypothesis R_trans : forall w1 w2 w3, R w1 w2 -> R w2 w3 -> R w1 w3.
Context {A B : Type}.

Lemma frames_ret (a : A) : frames R (ret a).
Proof. intros w. apply R_refl. Qed.

Lemma frames_lift (r : result A) : frames R (lift r).
Proof. intros w. apply R_refl. Qed.

Lemma frames_bind (m : M A) (f : A -> M B) :
  frames R m -> (forall a, frames R (f a)) -> frames R (bind m f).
Proof.
  intros Hm Hf w. unfold bind. specialize (Hm w).
  destruct (m w) as [[a|e] w1]; simpl in *.
  - eapply R_trans; [exact Hm | apply Hf].
  - exact Hm.
Qed.

Lemma frames_try (m : M A) h :
  frames R m -> (forall e, frames R (h e)) -> frames R (try_except m h).
Proof.
  intros Hm Hh w. unfold try_except. specialize (Hm w).
  destruct (m w) as [[a|e] w1]; simpl in *.
  - exact Hm.
  - eapply R_trans; [exact Hm | apply Hh].
Qed.

End Frames.

Lemma same_messages_refl w : same_messages w w.
Proof. reflexivity. Qed.

Lemma same_messages_trans w1 w2 w3 :
  same_messages w1 w2 -> same_messages w2 w3 -> same_messages w1 w3.
Proof. unfold same_messages. congruence. Qed.

Lemma same_records_refl w : same_records w w.
Proof. split; reflexivity. Qed.

Lemma same_records_trans w1 w2 w3 :
  same_records w1 w2 -> same_records w2 w3 -> same_records w1 w3.
Proof. unfold same_records. intuition congruence. Qed.

Lemma same_records_messages w w' : same_records w w' -> same_messages w w'.
Proof. intros [_ H]. exact H. Qed.

Lemma never_raises_print line : never_raises (print line).
Proof. intros w. eexists _, _. reflexivity. Qed.

Create HintDb total.
#[local] Hint Resolve never_raises_ret never_raises_print : total.

(** ** The store *)

Lemma execute_calm w : store_faults w = [] -> Store.execute w = (Ok tt, w).
Proof. intros E. unfold Store.execute. rewrite E. reflexivity. Qed.

Lemma In_insert_by_position s x rows :
  In x (Store.insert_by_position s rows) <-> x = s \/ In x rows.
Proof.
  induction rows as [|t rest IH]; simpl.
  - intuition congruence.
  - destruct (stage_position s <=? stage_position t); simpl.
    + intuition congruence.
    + rewrite IH. intuition congruence.
Qed.

Lemma In_order_by_position x rows :
  In x (Store.order_by_position rows) <-> In x rows.
Proof.
  induction rows as [|s rest IH]; simpl.
  - tauto.
  - rewrite In_insert_by_position, IH. intuition congruence.
Qed.

Lemma head_least_insert s rows :
  head_least rows -> head_least (Store.insert_by_position s rows).
Proof.
  destruct rows as [|t rest]; simpl.
  - intros _ x [].
  - intros Ht. destruct (stage_position s <=? stage_position t) eqn:E; simpl.
    + apply Z.leb_le in E. intros x [<- | Hx]; [exact E|].
      specialize (Ht x Hx). lia.
    + apply Z.leb_gt in E. intros x Hx.
      apply In_insert_by_position in Hx. destruct Hx as [-> | Hx]; [lia|].
      exact (Ht x Hx).
Qed.

Lemma head_least_order rows : head_least (Store.order_by_position rows).
Proof.
  induction rows as [|s rest IH]; simpl; [exact I|].
  apply head_least_insert, IH.
Qed.

Lemma first_stage_least w st rest :
  Store.order_by_position (pipeline_stages w) = st :: rest -> least_stage st w.
Proof.
  intros E. split.
  - apply In_order_by_position. rewrite E. left. reflexivity.
  - intros s Hs. apply In_order_by_position in Hs. rewrite E in Hs.
    destruct Hs as [<- | Hs]; [lia|].
    pose proof (head_least_order (pipeline_stages w)) as H.
    rewrite E in H. exact (H s Hs).
Qed.

Lemma order_by_position_nonempty rows :
  rows <> [] -> Store.order_by_position rows <> [].
Proof.
  destruct rows as [|s rest]; [congruence|].
  intros _ E. assert (H : In s (Store.order_by_position (s :: rest))).
  { apply In_order_by_position. left. reflexivity. }
  rewrite E in H. exact H.
Qed.

Lemma unknown_filter phone w :
  unknown phone w ->
  filter (fun l => Py.eqb (lead_phone l) phone) (leads w) = [].
Proof.
  unfold unknown. induction (leads w) as [|l ls IH]; intros H; simpl.
  - reflexivity.
  - rewrite (H l (or_introl eq_refl)). apply IH.
    intros l' Hl'. apply H. right. exact Hl'.
Qed.

(** ** The event logger *)

Lemma log_system_event_never_raises supabase level source message meta :
  never_raises (log_system_event supabase level source message meta).
Proof.
  unfold log_system_event. destruct supabase; simpl; auto with total.
  apply never_raises_try. auto with total.
Qed.

#[local] Hint Resolve log_system_event_never_raises : total.

Lemma log_system_event_calm level source message meta w :
  store_faults w = [] ->
  log_system_event true level source message meta w =
  (Ok tt, with_system_logs (system_logs w ++ [mkLog level source message meta]) w).
Proof.
  intros E. unfold log_system_event, try_except, Store.insert_log. simpl.
  rewrite (bind_ok _ _ _ _ _ (execute_calm w E)). reflexivity.
Qed.

Lemma log_system_event_keeps_records supabase level source message meta :
  keeps_records (log_system_event supabase level source message meta).
Proof.
  intros w. unfold same_records, log_system_event, try_except, Store.insert_log,
    bind, Store.execute, print.
  destruct supabase; simpl; [|tauto].
  destruct (store_faults w) as [|[] ?]; simpl; tauto.
Qed.

Lemma log_system_event_keeps_leads supabase level source message meta w :
  leads (snd (log_system_event supabase level source message meta w)) = leads w.
Proof. apply log_system_event_keeps_records. Qed.

Lemma log_system_event_keeps_messages supabase level source message meta w :
  messages (snd (log_system_event supabase level source message meta w)) = messages w.
Proof. apply log_system_event_keeps_records. Qed.

(** After a call of the logger, the leads and messages are those of
    before it. *)
Ltac after_log :=
  etransitivity;
  [ first [ apply log_system_event_keeps_leads
          | apply log_system_event_keeps_messages ]
  | reflexivity ].

(** ** The conversation recorder *)

Lemma salvar_mensagem_never_raises supabase lid content direction :
  never_raises (salvar_mensagem supabase lid content direction).
Proof.
  unfold salvar_mensagem.
  destruct (negb supabase || negb (Py.truthy lid)); auto with total.
  apply never_raises_try. intros e.
  apply never_raises_bind; auto with total.
Qed.


Lemma salvar_mensagem_inbound_calm lid content w :
  Py.truthy lid = true ->
  store_faults w = [] ->
  salvar_mensagem true lid content "inbound" w =
  (Ok tt,
   with_stdout (stdout w ++ [[Lit "💾 Mensagem salva no banco para Lead ID: "; StrOf lid]])
     (with_leads (map (fun l => if Py.eqb (lead_id l) lid
                                then Store.touch content l else l) (leads w))
        (with_messages (messages w ++ [mkMessage lid content "inbound" "text" "read"])
           w))).
Proof.
  intros Hlid Hcalm.
  unfold salvar_mensagem, Store.insert_message, Store.update_last_message,
    Store.execute.
  unfold try_except, bind, print.
  rewrite Hlid. simpl. rewrite Hcalm. simpl. rewrite Hcalm. reflexivity.
Qed.

Lemma salvar_mensagem_outbound_calm lid content w :
  Py.truthy lid = true ->
  store_faults w = [] ->
  salvar_mensagem true lid content "outbound" w =
  (Ok tt,
   with_stdout (stdout w ++ [[Lit "💾 Mensagem salva no banco para Lead ID: "; StrOf lid]])
     (with_messages (messages w ++ [mkMessage lid content "outbound" "text" "sent"])
        w)).
Proof.
  intros Hlid Hcalm.
  unfold salvar_mensagem, Store.insert_message, Store.execute.
  unfold try_except, bind, print.
  rewrite Hlid. simpl. rewrite Hcalm. reflexivity.
Qed.

Lemma salvar_mensagem_adds_at_most_one supabase lid content direction w :
  messages (snd (salvar_mensagem supabase lid content direction w)) = messages w \/
  exists m, messages (snd (salvar_mensagem supabase lid content direction w)) =
            (messages w ++ [m])%list.
Proof.
  unfold salvar_mensagem.
  destruct (negb supabase || negb (Py.truthy lid)); [left; reflexivity|].
  unfold Store.insert_message, Store.update_last_message, Store.execute.
  unfold try_except, bind, print, ret.
  destruct (store_faults w) as [|[] [|[] faults]] eqn:E; simpl;
    destruct (direction =? "inbound")%string; simpl; rewrite ?E;
    first [ left; reflexivity
          | right; eexists; reflexivity
          | left; etransitivity;
            [apply log_system_event_keeps_records | reflexivity]
          | right; eexists; etransitivity;
            [apply log_system_event_keeps_records | reflexivity] ].
Qed.

(** C9. [salvar_mensagem] called with no lead identifier ([None]) does
    nothing at all: it returns at once, without an error, and the world
    is the one it was called in, so no message row is inserted and no
    lead is updated. *)
Theorem salvar_mensagem_without_lead :
  forall supabase content direction w,
    salvar_mensagem supabase JNull content direction w = (Ok tt, w).
Proof.
  intros. unfold salvar_mensagem. simpl.
  rewrite orb_true_r. reflexivity.
Qed.

(** C8. Recording an outbound message leaves the table of leads as it
    was, whatever the store answers: no lead's last-message timestamp or
    content changes. *)
Theorem salvar_mensagem_outbound_keeps_leads :
  forall supabase lid content w,
    leads (snd (salvar_mensagem supabase lid content "outbound" w)) = leads w.
Proof.
  intros. unfold salvar_mensagem.
  destruct (negb supabase || negb (Py.truthy lid)); [reflexivity|].
  unfold Store.insert_message, Store.execute.
  unfold try_except, bind, print. simpl.
  destruct (store_faults w) as [|[] faults]; simpl; try reflexivity.
  after_log.
Qed.

Lemma touch_sets content l :
  lead_last_message_content (Store.touch content l) = content /\
  lead_last_message_at (Store.touch content l) = JStr "now()" /\
  lead_id (Store.touch content l) = lead_id l.
Proof. repeat split. Qed.

(** C2. With the store configured and answering, and a lead identifier
    that is present: recording an inbound message appends a message row
    of status "read" and sets, on every lead of that identifier, the
    last-message timestamp and the last-message content, the content to
    the very text recorded; recording an outbound message appends a
    message row of status "sent". *)
Theorem salvar_mensagem_records :
  forall lid content w,
    Py.truthy lid = true ->
    store_faults w = [] ->
    (exists w',
        salvar_mensagem true lid content "inbound" w = (Ok tt, w') /\
        messages w' = (messages w ++ [mkMessage lid content "inbound" "text" "read"])%list /\
        leads w' = map (fun l => if Py.eqb (lead_id l) lid
                                 then Store.touch content l else l) (leads w) /\
        (forall l, In l (leads w) -> lead_id l = lid ->
                   In (Store.touch content l) (leads w')) /\
        (forall l', In l' (leads w') -> lead_id l' = lid ->
                    lead_last_message_content l' = content /\
                    lead_last_message_at l' = JStr "now()")) /\
    (exists w',
        salvar_mensagem true lid content "outbound" w = (Ok tt, w') /\
        messages w' = (messages w ++ [mkMessage lid content "outbound" "text" "sent"])%list).
Proof.
  intros lid content w Hlid Hcalm. split.
  - eexists. split; [apply salvar_mensagem_inbound_calm; assumption|].
    simpl. split; [reflexivity|]. split; [reflexivity|]. split.
    + intros l Hl <-. apply in_map_iff. exists l. rewrite eqb_refl. tauto.
    + intros l' Hl' Hid. apply in_map_iff in Hl'.
      destruct Hl' as (l & E & _).
      destruct (Py.eqb (lead_id l) lid) eqn:Eid.
      * subst l'. split; reflexivity.
      * subst l'. rewrite <- Hid, eqb_refl in Eid. discriminate.
  - eexists. split; [apply salvar_mensagem_outbound_calm; assumption|].
    reflexivity.
Qed.

Lemma salvar_mensagem_records_witness :
  exists w',
    salvar_mensagem true (JInt 42) (JStr "Hello") "inbound" Examples.with_ana
      = (Ok tt, w') /\
    leads w' = [Store.touch (JStr "Hello") Examples.ana].
Proof.
  destruct (salvar_mensagem_records (JInt 42) (JStr "Hello") Examples.with_ana
              eq_refl eq_refl) as [(w' & E & _ & Hleads & _) _].
  exists w'. split; [exact E|]. rewrite Hleads. reflexivity.
Defined.

(** ** The outbound dispatcher *)


Lemma enviar_mensagem_whatsapp_keeps_records supabase token phone_id numero texto :
  keeps_records (enviar_mensagem_whatsapp supabase token phone_id numero texto).
Proof.
  intros w. unfold same_records, enviar_mensagem_whatsapp.
  destruct (unset token || unset phone_id).
  - unfold bind, print. simpl.
    split; (after_log).
  - unfold try_except, bind, Requests.post, Requests.raise_for_status, print, lift, ret.
    destruct (net_script w) as [|[st|] script]; simpl;
      try destruct ((400 <=? st) && (st <? 600)); simpl;
      try tauto;
      split; (after_log).
Qed.

(** C4, as stated, fails.  With a credential missing the function does
    not return an error: it returns as after a successful send, and no
    exception leaves it.  And the log entry is not always written: with
    the store not configured there is none. *)
Lemma enviar_mensagem_whatsapp_unconfigured_returns_normally :
  let numero := JStr "+15551234" in
  let texto := JStr "Hi back" in
  let missing := enviar_mensagem_whatsapp false None (Some "1055") numero texto
                                          Examples.with_ana in
  let sent := enviar_mensagem_whatsapp false (Some "token") (Some "1055") numero texto
                                       Examples.fresh in
  unset None = true /\
  fst missing = Ok tt /\
  (forall e, fst missing <> Raise e) /\
  fst missing = fst sent /\
  List.length (net_calls (snd sent)) = 1%nat /\
  system_logs (snd missing) = system_logs Examples.with_ana.
Proof. repeat split. intros e. discriminate. Qed.

(** C4, amended. While the token or the channel identifier of the
    messaging platform is not configured (unset or empty),
    [enviar_mensagem_whatsapp] returns at once and normally, with no
    value and no exception: no post is made (the trace of calls and the
    script of answers are untouched) and no lead or message is written.
    The failure is reported through the logger only: at most one entry
    is appended to the log, an error of source API_SEND that says the
    credentials are not configured; it is written when the store is
    configured and answers, and it is not when the store is not
    configured or refuses the write. *)
Theorem enviar_mensagem_whatsapp_unconfigured :
  forall supabase token phone_id numero texto w,
    unset token = true \/ unset phone_id = true ->
    let entry := mkLog "ERROR" "API_SEND"
                       [Lit "Credenciais da Meta não configuradas."] NoMetadata in
    exists w',
      enviar_mensagem_whatsapp supabase token phone_id numero texto w = (Ok tt, w') /\
      net_calls w' = net_calls w /\
      net_script w' = net_script w /\
      leads w' = leads w /\ messages w' = messages w /\
      (system_logs w' = system_logs w \/
       system_logs w' = (system_logs w ++ [entry])%list) /\
      (supabase = true -> store_faults w = [] ->
       system_logs w' = (system_logs w ++ [entry])%list) /\
      (supabase = false -> system_logs w' = system_logs w) /\
      (forall rest, store_faults w = true :: rest -> system_logs w' = system_logs w).
Proof.
  intros supabase token phone_id numero texto w Hcred entry.
  assert (E : unset token || unset phone_id = true).
  { apply orb_true_iff. exact Hcred. }
  unfold enviar_mensagem_whatsapp. rewrite E.
  unfold log_system_event, Store.insert_log, Store.execute.
  unfold try_except, bind, print, ret.
  destruct supabase; simpl.
  - destruct (store_faults w) as [|[] faults] eqn:Ef; simpl;
      eexists; (split; [reflexivity|]); simpl;
      repeat split; try tauto; try discriminate;
      intros; try discriminate; reflexivity.
  - eexists. split; [reflexivity|]. simpl.
    repeat split; try tauto; try discriminate.
Qed.

Lemma enviar_mensagem_whatsapp_unconfigured_witness :
  unset None = true /\
  exists w',
    enviar_mensagem_whatsapp true None (Some "1055") (JStr "+15551234")
                             (JStr "Hi back") Examples.with_ana = (Ok tt, w') /\
    net_calls w' = [] /\ List.length (system_logs w') = 1%nat.
Proof.
  split; [reflexivity|].
  destruct (enviar_mensagem_whatsapp_unconfigured true None (Some "1055")
              (JStr "+15551234") (JStr "Hi back") Examples.with_ana
              (or_introl eq_refl))
    as (w' & E & Hcalls & _ & _ & _ & _ & Hlogs & _).
  exists w'. split; [exact E|]. split; [exact Hcalls|].
  rewrite (Hlogs eq_refl eq_refl). reflexivity.
Defined.

(** ** The lead resolver *)

Lemma get_or_create_lead_never_raises supabase phone name :
  never_raises (get_or_create_lead supabase phone name).
Proof.
  unfold get_or_create_lead. destruct (negb supabase); auto with total.
  apply never_raises_try. intros e.
  repeat (apply never_raises_bind; [auto with total | intros ?]).
  auto with total.
Qed.

Lemma execute_keeps_messages : frames same_messages Store.execute.
Proof.
  intros w. unfold same_messages, Store.execute.
  destruct (store_faults w) as [|[] ?]; reflexivity.
Qed.

Lemma print_keeps_messages line : frames same_messages (print line).
Proof. intros w. reflexivity. Qed.

Lemma log_system_event_frames_messages supabase level source message meta :
  frames same_messages (log_system_event supabase level source message meta).
Proof. intros w. apply log_system_event_keeps_messages. Qed.

Create HintDb frame.
#[local] Hint Resolve same_messages_refl same_messages_trans
  execute_keeps_messages print_keeps_messages log_system_event_frames_messages
  : frame.

Ltac frame_step :=
  cbv zeta;
  match goal with
  | |- frames _ (bind _ _) =>
      apply frames_bind; [eauto with frame | | intros ?]
  | |- frames _ (try_except _ _) =>
      apply frames_try; [eauto with frame | | intros ?]
  | |- frames _ (ret _) => apply frames_ret; eauto with frame
  | |- frames _ (lift _) => apply frames_lift; eauto with frame
  | |- frames _ (if ?b then _ else _) => destruct b
  | |- frames _ (match ?x with _ => _ end) => destruct x
  | |- frames same_messages (fun w => _) => intros w; reflexivity
  | |- _ => solve [eauto with frame]
  end.

Lemma get_or_create_lead_keeps_messages supabase phone name :
  frames same_messages (get_or_create_lead supabase phone name).
Proof.
  unfold get_or_create_lead, Store.select_leads_by_phone,
    Store.select_first_stage_id, Store.insert_lead.
  repeat frame_step.
Qed.

Lemma select_unknown phone w :
  store_faults w = [] -> unknown phone w ->
  Store.select_leads_by_phone phone w = (Ok [], w).
Proof.
  intros Hcalm Hnew. unfold Store.select_leads_by_phone.
  rewrite (bind_ok _ _ _ _ _ (execute_calm w Hcalm)).
  rewrite (unknown_filter _ _ Hnew). reflexivity.
Qed.

Lemma select_first_stage_calm w :
  store_faults w = [] ->
  Store.select_first_stage_id w =
  (Ok (map stage_id (firstn 1 (Store.order_by_position (pipeline_stages w)))), w).
Proof.
  intros Hcalm. unfold Store.select_first_stage_id.
  rewrite (bind_ok _ _ _ _ _ (execute_calm w Hcalm)). reflexivity.
Qed.

(** The run of the resolver on an unknown address when the store has a
    stage: the world it ends in, written out. *)
Lemma get_or_create_lead_new phone name w st rest :
  store_faults w = [] ->
  unknown phone w ->
  Store.order_by_position (pipeline_stages w) = st :: rest ->
  Py.truthy (stage_id st) = true ->
  let new := mkLead (JInt (lead_seq w)) name phone (stage_id st) (JInt 1) (JObj [])
                    JNull JNull in
  get_or_create_lead true phone name w =
  (Ok (Some new),
   with_stdout (stdout w ++ [[Lit "✨ Novo lead criado: "; StrOf phone]])
     (with_lead_seq (lead_seq w + 1) (with_leads (leads w ++ [new]) w))).
Proof.
  intros Hcalm Hnew Hfirst Hkey new.
  unfold get_or_create_lead. simpl negb. cbv iota.
  apply try_ok.
  rewrite (bind_ok _ _ _ _ _ (select_unknown phone w Hcalm Hnew)).
  rewrite (bind_ok _ _ _ _ _ (select_first_stage_calm w Hcalm)).
  rewrite Hfirst. simpl. rewrite Hkey. simpl.
  unfold Store.insert_lead, Store.execute, bind, print, lift, ret. simpl.
  rewrite Hcalm. simpl. reflexivity.
Qed.

(** The run of the resolver on an unknown address when the store has no
    stage. *)
Lemma get_or_create_lead_unstaged phone name w :
  store_faults w = [] ->
  unknown phone w ->
  pipeline_stages w = [] ->
  get_or_create_lead true phone name w =
  (Ok None,
   with_system_logs
     (system_logs w ++
      [mkLog "ERROR" "SYSTEM"
             [Lit "Nenhuma etapa de funil encontrada para criar o lead."] NoMetadata])
     (with_stdout
        (stdout w ++
         [[Lit "❌ "; Lit "Nenhuma etapa de funil encontrada para criar o lead."]])
        w)).
Proof.
  intros Hcalm Hnew Hnone.
  unfold get_or_create_lead. simpl negb. cbv iota.
  apply try_ok.
  rewrite (bind_ok _ _ _ _ _ (select_unknown phone w Hcalm Hnew)).
  rewrite (bind_ok _ _ _ _ _ (select_first_stage_calm w Hcalm)).
  rewrite Hnone. simpl.
  unfold bind, print. simpl.
  rewrite log_system_event_calm by exact Hcalm. reflexivity.
Qed.

(** C1. For an address no lead of the store has, a store that is
    configured and answers, and at least one stage (the stages carrying
    proper keys), [get_or_create_lead] appends exactly one lead to the
    table and returns it: its stage is a stage of least position, its
    address and name are the ones given, its unread counter is 1 and its
    custom fields are empty.  Nothing is logged and no message is
    written. *)
Theorem get_or_create_lead_creates :
  forall phone name w,
    store_faults w = [] ->
    unknown phone w ->
    pipeline_stages w <> [] ->
    stage_keys_set w ->
    exists st new w',
      least_stage st w /\
      get_or_create_lead true phone name w = (Ok (Some new), w') /\
      leads w' = (leads w ++ [new])%list /\
      lead_stage_id new = stage_id st /\
      lead_phone new = phone /\
      lead_name new = name /\
      lead_unread_count new = JInt 1 /\
      lead_custom_fields new = JObj [] /\
      messages w' = messages w /\
      system_logs w' = system_logs w.
Proof.
  intros phone name w Hcalm Hnew Hstages Hkeys.
  destruct (Store.order_by_position (pipeline_stages w)) as [|st rest] eqn:E.
  - exfalso. exact (order_by_position_nonempty _ Hstages E).
  - pose proof (first_stage_least w st rest E) as Hleast.
    assert (Hkey : Py.truthy (stage_id st) = true).
    { apply Hkeys. apply Hleast. }
    eexists st, _, _. split; [exact Hleast|].
    split; [exact (get_or_create_lead_new phone name w st rest Hcalm Hnew E Hkey)|].
    simpl. repeat split.
Qed.

Lemma get_or_create_lead_creates_witness :
  store_faults Examples.fresh = [] /\
  pipeline_stages Examples.fresh <> [] /\
  exists new w',
    get_or_create_lead true (JStr "+15551234") (JStr "Ana") Examples.fresh
      = (Ok (Some new), w') /\
    leads w' = [new] /\
    lead_stage_id new = stage_id Examples.novo.
Proof.
  assert (Hstages : pipeline_stages Examples.fresh <> []) by discriminate.
  assert (Hnew : unknown (JStr "+15551234") Examples.fresh) by (intros l []).
  assert (Hkeys : stage_keys_set Examples.fresh).
  { intros s [<- | [<- | []]]; reflexivity. }
  split; [reflexivity|]. split; [exact Hstages|].
  destruct (get_or_create_lead_creates (JStr "+15551234") (JStr "Ana")
              Examples.fresh eq_refl Hnew Hstages Hkeys)
    as (st & new & w' & Hleast & E & Hleads & Hstage & _).
  exists new, w'. split; [exact E|]. split; [exact Hleads|].
  rewrite Hstage. destruct Hleast as [[<- | [<- | []]] Hmin].
  - specialize (Hmin Examples.novo (or_intror (or_introl eq_refl))).
    simpl in Hmin. lia.
  - reflexivity.
Defined.

(** ** The outbound pipeline *)

Lemma enviar_mensagem_whatsapp_calm token phone_id numero texto w :
  store_faults w = [] ->
  exists w1,
    enviar_mensagem_whatsapp true token phone_id numero texto w = (Ok tt, w1) /\
    store_faults w1 = [] /\
    leads w1 = leads w /\
    messages w1 = messages w /\
    (delivery_fails token phone_id w = false -> system_logs w1 = system_logs w) /\
    (delivery_fails token phone_id w = true ->
     exists e, system_logs w1 = (system_logs w ++ [e])%list /\
               log_level e = "ERROR" /\ log_source e = "API_SEND").
Proof.
  intros Hcalm. unfold enviar_mensagem_whatsapp, delivery_fails.
  destruct (unset token || unset phone_id); simpl.
  - unfold bind, print. simpl.
    rewrite log_system_event_calm by exact Hcalm.
    eexists. split; [reflexivity|]. simpl.
    repeat split; try assumption; try discriminate.
    intros _. eexists. repeat split.
  - unfold try_except, bind, Requests.post, Requests.raise_for_status, print,
      lift, ret.
    destruct (net_script w) as [|[st|] script]; simpl.
    + eexists. split; [reflexivity|]. simpl.
      repeat split; try assumption; discriminate.
    + destruct ((400 <=? st) && (st <? 600)); simpl.
      * rewrite log_system_event_calm by exact Hcalm.
        eexists. split; [reflexivity|]. simpl.
        repeat split; try assumption; try discriminate.
        intros _. eexists. repeat split.
      * eexists. split; [reflexivity|]. simpl.
        repeat split; try assumption; discriminate.
    + rewrite log_system_event_calm by exact Hcalm.
      eexists. split; [reflexivity|]. simpl.
      repeat split; try assumption; try discriminate.
      intros _. eexists. repeat split.
Qed.

(** C3. A send request that carries an address, a text and a lead
    identifier, the store being configured and answering, is accepted
    (200, status "sent") and appends one message row of direction
    outbound and status "sent", whatever the credentials are and whatever
    the messaging platform answers; the leads are untouched.  When the
    send fails, the one trace of it in the store is an error entry of
    source API_SEND at the end of the log; when it does not, the log is
    unchanged. *)
Theorem api_send_message_records_despite_failure :
  forall token phone_id items phone text lid w,
    Py.lookup "phone" items = Some phone ->
    Py.lookup "text" items = Some text ->
    Py.lookup "lead_id" items = Some lid ->
    Py.truthy phone = true ->
    Py.truthy text = true ->
    Py.truthy lid = true ->
    store_faults w = [] ->
    exists w',
      api_send_message true token phone_id (JObj items) w = (Ok accepted, w') /\
      messages w' = (messages w ++ [mkMessage lid text "outbound" "text" "sent"])%list /\
      leads w' = leads w /\
      (delivery_fails token phone_id w = false -> system_logs w' = system_logs w) /\
      (delivery_fails token phone_id w = true ->
       exists e, system_logs w' = (system_logs w ++ [e])%list /\
                 log_level e = "ERROR" /\ log_source e = "API_SEND").
Proof.
  intros token phone_id items phone text lid w Hphone Htext Hlid Tphone Ttext Tlid
         Hcalm.
  destruct (enviar_mensagem_whatsapp_calm token phone_id phone text w Hcalm)
    as (w1 & Esend & Hcalm1 & Hleads & Hmsgs & Hquiet & Hloud).
  unfold api_send_message, Py.get. rewrite Hphone, Htext, Hlid.
  unfold bind at 1 2 3. simpl. rewrite Tphone, Ttext. simpl.
  rewrite (bind_ok _ _ _ _ _ Esend). rewrite Tlid.
  rewrite (bind_ok _ _ _ _ _ (salvar_mensagem_outbound_calm lid text w1 Tlid Hcalm1)).
  eexists. split; [reflexivity|]. simpl.
  rewrite Hmsgs, Hleads. repeat split; assumption.
Qed.

Lemma api_send_message_records_despite_failure_witness :
  delivery_fails (Some "token") (Some "1055") Examples.with_ana = true /\
  exists w',
    api_send_message true (Some "token") (Some "1055") Examples.send_request
                     Examples.with_ana = (Ok accepted, w') /\
    messages w' = [mkMessage (JInt 42) (JStr "Hi back") "outbound" "text" "sent"] /\
    List.length (system_logs w') = 1%nat.
Proof.
  split; [reflexivity|].
  destruct (api_send_message_records_despite_failure
              (Some "token") (Some "1055") Examples.send_fields (JStr "+15551234") (JStr "Hi back")
              (JInt 42) Examples.with_ana
              eq_refl eq_refl eq_refl eq_refl eq_refl eq_refl eq_refl)
    as (w' & E & Hmsgs & _ & _ & Hloud).
  exists w'. split; [exact E|]. split; [exact Hmsgs|].
  destruct (Hloud eq_refl) as (e & Hlogs & _). rewrite Hlogs. reflexivity.
Defined.

(** ** The inbound endpoint *)

Lemma on_failure_never_raises supabase data e :
  never_raises (on_failure supabase data e).
Proof. unfold on_failure. apply never_raises_bind; auto with total. Qed.

Lemma on_failure_keeps_records supabase data e :
  keeps_records (on_failure supabase data e).
Proof.
  intros w. unfold on_failure, bind, print. simpl.
  split; after_log.
Qed.

Lemma deliver_never_raises supabase numero corpo nome :
  never_raises (deliver supabase numero corpo nome).
Proof.
  unfold deliver. apply never_raises_bind; auto with total. intros _.
  destruct supabase; auto with total.
  apply never_raises_bind.
  - apply get_or_create_lead_never_raises.
  - intros [l|]; auto with total. apply salvar_mensagem_never_raises.
Qed.

Ltac walk :=
  repeat
    (cbv beta iota; cbn [and_then];
     first
       [ reflexivity
       | rewrite try_ret
       | rewrite try_lift;
         match goal with
         | |- match ?r with _ => _ end = _ => destruct r as [?|?]
         end
       | match goal with
         | |- try_except (bind (if ?b then _ else _) _) _ _ = _ => destruct b
         | |- try_except (if ?b then _ else _) _ _ = _ => destruct b
         end ]).

Lemma webhook_post_reads supabase data w :
  webhook_post supabase data w =
  bind (after_reading supabase data (read_event data))
       (fun _ => ret acknowledged) w.
Proof.
  unfold webhook_post.
  apply bind_congr.
  unfold read_event, after_reading.
  walk.
Qed.

(** C6. Whatever the payload and whatever the store does, the [POST]
    branch of [webhook] returns the fixed acknowledgment, status 200 and
    body [{"status": "success"}]: no exception leaves the handler. *)
Theorem webhook_post_acknowledges :
  forall supabase data w,
    fst (webhook_post supabase data w) = Ok acknowledged.
Proof.
  intros supabase data w. unfold webhook_post.
  match goal with
  | |- fst (bind (try_except ?body ?h) _ _) = _ =>
      destruct (never_raises_try body h) with (w := w) as (u & w' & E)
  end.
  - intros e. apply never_raises_bind; auto with total.
  - rewrite (bind_ok _ _ _ _ _ E). reflexivity.
Qed.

Lemma on_failure_calm data e w :
  store_faults w = [] ->
  system_logs (snd (on_failure true data e w)) =
  (system_logs w ++ [mkLog "ERROR" "WEBHOOK_META"
                           [Lit "Falha no processamento: "; StrExn e]
                           (Payload data)])%list.
Proof.
  intros Hcalm. unfold on_failure, bind, print. simpl.
  rewrite log_system_event_calm by exact Hcalm. reflexivity.
Qed.

(** The walk on an envelope of the platform's shape: a first message of
    another type stops it quietly, a first message with no type makes it
    raise; the messages after the first play no part. *)
Lemma read_event_other_type fields t rest :
  Py.lookup "type" fields = Some t ->
  Py.eqb t (JStr "text") = false ->
  read_event (Examples.envelope (JObj fields :: rest)) = Ok (OtherType t).
Proof.
  intros Ht Hother. unfold read_event, Examples.envelope. simpl.
  rewrite Ht. simpl. rewrite Hother. reflexivity.
Qed.

Lemma read_event_missing_type fields rest :
  Py.lookup "type" fields = None ->
  read_event (Examples.envelope (JObj fields :: rest)) =
  Raise (Py.KeyError (Py.KStr "type")).
Proof.
  intros Ht. unfold read_event, Examples.envelope. simpl.
  rewrite Ht. reflexivity.
Qed.

(** C5, as stated, fails: a message with no ['type'] is an event with a
    missing field, and the handler writes a log entry for it. *)
Lemma webhook_post_logs_missing_field :
  read_event (Examples.envelope [Examples.untyped]) = Raise (Py.KeyError (Py.KStr "type")) /\
  ~ dropped_silently true (Examples.envelope [Examples.untyped]) Examples.fresh.
Proof.
  split; [reflexivity|].
  unfold dropped_silently. vm_compute. intros (_ & _ & _ & H). discriminate H.
Qed.

(** C5, amended. An event in which the handler's walk ends without a text
    message (no 'object' or 'entry' key, no 'messages' key, or a first
    message of another type) is acknowledged and leaves the world as it
    was: no lead, no message, no log entry, nothing printed.  An event in
    which the walk raises (a field missing or of the wrong shape) is
    acknowledged too and writes no lead and no message, but it is logged:
    with the store configured and answering, one error entry of source
    WEBHOOK_META carrying the payload is appended to the log. *)
Theorem webhook_post_ignores :
  forall supabase data w,
    (forall r, read_event data = Ok r -> is_text r = false ->
               webhook_post supabase data w = (Ok acknowledged, w)) /\
    (forall e, read_event data = Raise e ->
               exists w',
                 webhook_post supabase data w = (Ok acknowledged, w') /\
                 leads w' = leads w /\ messages w' = messages w /\
                 (supabase = true -> store_faults w = [] ->
                  system_logs w' =
                  (system_logs w ++ [mkLog "ERROR" "WEBHOOK_META"
                                           [Lit "Falha no processamento: "; StrExn e]
                                           (Payload data)])%list)).
Proof.
  intros supabase data w. split.
  - intros r Hr Hnot. rewrite webhook_post_reads, Hr.
    destruct r; try discriminate Hnot; reflexivity.
  - intros e He. rewrite webhook_post_reads, He. simpl after_reading.
    destruct (on_failure_never_raises supabase data e w) as ([] & w' & E).
    rewrite (bind_ok _ _ _ _ _ E). exists w'. split; [reflexivity|].
    pose proof (on_failure_keeps_records supabase data e w) as [Hl Hm].
    rewrite E in Hl, Hm. simpl in Hl, Hm.
    split; [exact Hl|]. split; [exact Hm|].
    intros -> Hcalm. pose proof (on_failure_calm data e w Hcalm) as Hlog.
    rewrite E in Hlog. exact Hlog.
Qed.

Lemma webhook_post_ignores_witness :
  read_event (Examples.envelope [Examples.photo]) = Ok (OtherType (JStr "image")) /\
  webhook_post true (Examples.envelope [Examples.photo]) Examples.fresh
    = (Ok acknowledged, Examples.fresh).
Proof.
  split; [reflexivity|].
  exact (proj1 (webhook_post_ignores true (Examples.envelope [Examples.photo])
                  Examples.fresh)
               (OtherType (JStr "image")) eq_refl eq_refl).
Defined.

(** C7. For an address no lead of the store has, in a store that is
    configured and answers but has no stage, [get_or_create_lead] returns
    [None], appends exactly one entry to the log, an error of source
    SYSTEM, and creates no lead; and the inbound endpoint, given a text
    message from that address, is left with the same leads and the same
    messages: nothing is recorded. *)
Theorem get_or_create_lead_without_stage :
  forall phone name w,
    store_faults w = [] ->
    unknown phone w ->
    pipeline_stages w = [] ->
    let entry := mkLog "ERROR" "SYSTEM"
                       [Lit "Nenhuma etapa de funil encontrada para criar o lead."]
                       NoMetadata in
    (exists w',
        get_or_create_lead true phone name w = (Ok None, w') /\
        system_logs w' = (system_logs w ++ [entry])%list /\
        leads w' = leads w /\ messages w' = messages w) /\
    (forall data corpo,
        read_event data = Ok (TextMessage phone corpo name) ->
        exists w',
          webhook_post true data w = (Ok acknowledged, w') /\
          system_logs w' = (system_logs w ++ [entry])%list /\
          leads w' = leads w /\ messages w' = messages w).
Proof.
  intros phone name w Hcalm Hnew Hnone entry. split.
  - eexists. split; [apply get_or_create_lead_unstaged; assumption|].
    simpl. repeat split.
  - intros data corpo Hread. rewrite webhook_post_reads, Hread.
    simpl after_reading.
    rewrite (bind_congr _ _ _ _ (try_never_raises _ _ _
               (deliver_never_raises true phone corpo name))).
    unfold deliver. unfold bind at 1 2. unfold print at 1.
    unfold bind at 1.
    rewrite get_or_create_lead_unstaged; [| exact Hcalm | exact Hnew | exact Hnone].
    eexists. split; [reflexivity|]. simpl. repeat split.
Qed.

Lemma get_or_create_lead_without_stage_witness :
  pipeline_stages Examples.unstaged = [] /\
  exists w',
    get_or_create_lead true (JStr "+15551234") (JStr "Ana") Examples.unstaged
      = (Ok None, w') /\
    List.length (system_logs w') = 1%nat /\ leads w' = [].
Proof.
  split; [reflexivity|].
  assert (Hnew : unknown (JStr "+15551234") Examples.unstaged) by (intros l []).
  destruct (proj1 (get_or_create_lead_without_stage (JStr "+15551234") (JStr "Ana")
                     Examples.unstaged eq_refl Hnew eq_refl))
    as (w' & E & Hlog & Hleads & _).
  exists w'. split; [exact E|]. rewrite Hlog, Hleads. split; reflexivity.
Defined.

(** ** Payloads of several messages *)

Lemma lookup_on_key_same k f items :
  Py.lookup k (on_key k f items) = option_map f (Py.lookup k items).
Proof.
  induction items as [|[k' v] rest IH]; simpl; [reflexivity|].
  destruct (String.eqb k k') eqn:E; simpl; rewrite E; [reflexivity | exact IH].
Qed.

Lemma lookup_on_key_other k k' f items :
  String.eqb k' k = false ->
  Py.lookup k' (on_key k f items) = Py.lookup k' items.
Proof.
  intros Hk. induction items as [|[k0 v] rest IH]; simpl; [reflexivity|].
  destruct (String.eqb k k0) eqn:E; simpl.
  - apply String.eqb_eq in E. subst k0. rewrite Hk. reflexivity.
  - rewrite IH. reflexivity.
Qed.

Lemma has_key_on_key k k' f items :
  Py.has_key k' (on_key k f items) = Py.has_key k' items.
Proof.
  unfold Py.has_key. destruct (String.eqb k' k) eqn:E.
  - apply String.eqb_eq in E. subst k'. rewrite lookup_on_key_same.
    destruct (Py.lookup k items); reflexivity.
  - rewrite lookup_on_key_other by exact E. reflexivity.
Qed.

Lemma contains_in_dict k k' f v :
  Py.contains k' (in_dict k f v) = Py.contains k' v.
Proof.
  destruct v; try reflexivity. simpl. rewrite has_key_on_key. reflexivity.
Qed.

Lemma getitem_in_dict k f v :
  Py.getitem (in_dict k f v) k = map_result f (Py.getitem v k).
Proof.
  destruct v; try reflexivity. simpl. rewrite lookup_on_key_same.
  destruct (Py.lookup k items); reflexivity.
Qed.

Lemma get_in_dict_other k k' f v d :
  String.eqb k' k = false ->
  Py.get (in_dict k f v) k' d = Py.get v k' d.
Proof.
  intros Hk. destruct v; try reflexivity. simpl.
  rewrite lookup_on_key_other by exact Hk. reflexivity.
Qed.

(** [f] leaves strings alone, as every cut of [first_only] does. *)
Lemma first_head_only f v :
  (forall s, f (JStr s) = JStr s) ->
  Py.first (head_only f v) = map_result f (Py.first v).
Proof.
  intros Hf. destruct v as [ | | | s | [|x xs] | ]; try reflexivity.
  destruct s; simpl; [reflexivity|]. rewrite Hf. reflexivity.
Qed.

(** The walk sees nothing of what [first_only] cuts off. *)
Lemma read_event_first_only data :
  read_event (first_only data) = read_event data.
Proof.
  unfold read_event, first_only.
  rewrite !contains_in_dict.
  destruct (Py.contains "object" data) as [has_object|]; [|reflexivity].
  cbn [and_then].
  destruct (if has_object then Py.contains "entry" data else Ok false)
    as [[]|]; try reflexivity.
  cbn [and_then]. cbv iota.
  rewrite getitem_in_dict.
  destruct (Py.getitem data "entry") as [entries|]; [|reflexivity].
  cbn [and_then map_result]. rewrite first_head_only by reflexivity.
  destruct (Py.first entries) as [entry|]; [|reflexivity].
  cbn [and_then map_result]. rewrite getitem_in_dict.
  destruct (Py.getitem entry "changes") as [entry_changes|]; [|reflexivity].
  cbn [and_then map_result]. rewrite first_head_only by reflexivity.
  destruct (Py.first entry_changes) as [changes|]; [|reflexivity].
  cbn [and_then map_result]. rewrite getitem_in_dict.
  destruct (Py.getitem changes "value") as [value|]; [|reflexivity].
  cbn [and_then map_result]. rewrite contains_in_dict.
  destruct (Py.contains "messages" value) as [[]|]; try reflexivity.
  cbn [and_then]. cbv iota. rewrite getitem_in_dict.
  destruct (Py.getitem value "messages") as [value_messages|]; [|reflexivity].
  cbn [and_then map_result]. rewrite first_head_only by reflexivity.
  destruct (Py.first value_messages) as [message|]; [|reflexivity].
  cbn [and_then map_result].
  rewrite get_in_dict_other by reflexivity. reflexivity.
Qed.

Lemma deliver_adds_at_most_one supabase numero corpo nome w :
  messages (snd (deliver supabase numero corpo nome w)) = messages w \/
  exists m, messages (snd (deliver supabase numero corpo nome w)) =
            (messages w ++ [m])%list.
Proof.
  unfold deliver, bind, print.
  destruct supabase; [|left; reflexivity].
  set (w0 := with_stdout _ w).
  pose proof (get_or_create_lead_keeps_messages true numero nome w0) as Hkeep.
  unfold same_messages in Hkeep. change (messages w0) with (messages w) in Hkeep.
  destruct (get_or_create_lead true numero nome w0) as [[[l|]|e] w1];
    simpl in Hkeep |- *.
  - rewrite <- Hkeep. apply salvar_mensagem_adds_at_most_one.
  - left. exact Hkeep.
  - left. exact Hkeep.
Qed.

Lemma on_failure_payload supabase data data' e w :
  fst (on_failure supabase data e w) = fst (on_failure supabase data' e w) /\
  leads (snd (on_failure supabase data e w)) =
    leads (snd (on_failure supabase data' e w)) /\
  messages (snd (on_failure supabase data e w)) =
    messages (snd (on_failure supabase data' e w)) /\
  map without_payload (system_logs (snd (on_failure supabase data e w))) =
    map without_payload (system_logs (snd (on_failure supabase data' e w))).
Proof.
  unfold on_failure, log_system_event, Store.insert_log, Store.execute.
  unfold try_except, bind, print, ret.
  destruct supabase; simpl; [|repeat split].
  destruct (store_faults w) as [|[] faults]; simpl; repeat split;
    rewrite !map_app; reflexivity.
Qed.

(** The endpoint answers, and leaves the leads, the messages and the log
    (the payload captured in an error entry apart), on a payload exactly
    as on the payload cut down to its first message; and it adds at most
    one message row. *)
Lemma webhook_post_cut supabase data w :
  let run := webhook_post supabase data w in
  let cut := webhook_post supabase (first_only data) w in
  fst run = fst cut /\
  leads (snd run) = leads (snd cut) /\
  messages (snd run) = messages (snd cut) /\
  map without_payload (system_logs (snd run)) =
    map without_payload (system_logs (snd cut)) /\
  (messages (snd run) = messages w \/
   exists m, messages (snd run) = (messages w ++ [m])%list).
Proof.
  intros run cut. subst run cut.
  rewrite !webhook_post_reads, read_event_first_only.
  destruct (read_event data) as [[ | | t | numero corpo nome] | e];
    simpl after_reading.
  1-3: repeat split; left; reflexivity.
  - rewrite !(bind_congr _ _ _ _ (try_never_raises _ _ _
                (deliver_never_raises supabase numero corpo nome))).
    repeat split.
    pose proof (deliver_adds_at_most_one supabase numero corpo nome w) as H.
    unfold bind.
    destruct (deliver supabase numero corpo nome w) as [[[]|e] w1]; exact H.
  - pose proof (on_failure_payload supabase data (first_only data) e w)
      as (Hr & Hl & Hm & Hlog).
    pose proof (on_failure_keeps_records supabase data e w) as [_ Hsame].
    unfold bind.
    destruct (on_failure supabase data e w) as [[[]|e1] w1];
      destruct (on_failure supabase (first_only data) e w) as [[[]|e2] w2];
      simpl in *; try discriminate; repeat split; auto.
    congruence.
Qed.

(** ** The scenarios of the specification, run *)

(** A first text message from an unknown address: one lead in the stage
    of least position, one inbound message of status "read", and the
    lead's last message content set to the text. *)
Example first_contact :
  let w' := snd (webhook_post true (Examples.envelope [Examples.hello]) Examples.fresh) in
  leads w' = [mkLead (JInt 1) (JStr "Ana") (JStr "+15551234") (JInt 5) (JInt 1)
                     (JObj []) (JStr "now()") (JStr "Hello")] /\
  messages w' = [mkMessage (JInt 1) (JStr "Hello") "inbound" "text" "read"] /\
  system_logs w' = [].
Proof. repeat split. Qed.

(** A payload of two messages: the second one leaves no trace. *)
Example second_message_dropped :
  snd (webhook_post true (Examples.envelope [Examples.hello; Examples.photo])
                    Examples.fresh)
  = snd (webhook_post true (Examples.envelope [Examples.hello]) Examples.fresh).
Proof. reflexivity. Qed.

(** A send to a lead key of 0 is dispatched and accepted, and recorded
    nowhere: [if lead_id:] takes 0 for no identifier. *)
Example send_to_key_zero :
  let request := JObj [("phone", JStr "+15551234"); ("text", JStr "Hi back");
                       ("lead_id", JInt 0)] in
  let run := api_send_message true (Some "token") (Some "1055") request
                              Examples.with_ana in
  fst run = Ok accepted /\ messages (snd run) = [] /\
  List.length (net_calls (snd run)) = 1%nat.
Proof. repeat split. Qed.

(** * Further properties of the program *)

(** ** The event logger, whatever the store does *)

Lemma log_system_event_returns supabase level source message meta w :
  exists w',
    log_system_event supabase level source message meta w = (Ok tt, w') /\
    (system_logs w' = system_logs w \/
     system_logs w' = (system_logs w ++ [mkLog level source message meta])%list) /\
    leads w' = leads w /\ messages w' = messages w.
Proof.
  unfold log_system_event, Store.insert_log, Store.execute.
  unfold try_except, bind, print, ret.
  destruct supabase; simpl.
  - destruct (store_faults w) as [|[] faults]; simpl;
      eexists; (split; [reflexivity|]); simpl; tauto.
  - eexists. split; [reflexivity|]. tauto.
Qed.

(** X1. [log_system_event] never raises: it returns, having appended its
    entry to the log or left the log as it was, and having touched no
    lead and no message. *)
Theorem log_system_event_best_effort :
  forall supabase level source message meta w,
    exists w',
      log_system_event supabase level source message meta w = (Ok tt, w') /\
      (system_logs w' = system_logs w \/
       system_logs w' = (system_logs w ++ [mkLog level source message meta])%list) /\
      leads w' = leads w /\ messages w' = messages w.
Proof.
  intros supabase level source message meta w.
  destruct (log_system_event_returns supabase level source message meta w)
    as (w' & E & Hlog & Hleads & Hmsgs).
  exists w'. repeat split; assumption.
Qed.

(** X2. When the store refuses the write, [log_system_event] swallows the
    failure: the log is unchanged, the caller sees a normal return, and
    the failure is only printed. *)
Theorem log_system_event_swallows_failure :
  forall level source message meta w rest,
    store_faults w = true :: rest ->
    log_system_event true level source message meta w =
    (Ok tt,
     with_stdout
       (stdout w ++ [[Lit "❌ Erro crítico ao logar no Supabase: "; StrExn Py.APIError]])
       (with_store_faults rest w)).
Proof.
  intros level source message meta w rest Hfault.
  unfold log_system_event, Store.insert_log, Store.execute.
  unfold try_except, bind, print. simpl. rewrite Hfault. reflexivity.
Qed.

Lemma log_system_event_swallows_failure_witness :
  let w := with_store_faults [true] Examples.with_ana in
  store_faults w = [true] /\
  system_logs (snd (log_system_event true "ERROR" "SYSTEM" [Lit "x"] NoMetadata w))
  = system_logs w.
Proof.
  split; [reflexivity|].
  rewrite (log_system_event_swallows_failure "ERROR" "SYSTEM" [Lit "x"] NoMetadata
             (with_store_faults [true] Examples.with_ana) [] eq_refl).
  reflexivity.
Defined.

(** ** The outbound dispatcher *)

Lemma log_system_event_off_the_network supabase level source message meta w :
  net_calls (snd (log_system_event supabase level source message meta w)) = net_calls w /\
  net_script (snd (log_system_event supabase level source message meta w))
    = net_script w.
Proof.
  unfold log_system_event, Store.insert_log, Store.execute.
  unfold try_except, bind, print, ret.
  destruct supabase; simpl; [|tauto].
  destruct (store_faults w) as [|[] faults]; simpl; tauto.
Qed.

Lemma enviar_mensagem_whatsapp_configured supabase token phone_id numero texto w :
  token <> "" ->
  phone_id <> "" ->
  enviar_mensagem_whatsapp supabase (Some token) (Some phone_id) numero texto w =
  try_except
    (response <- Requests.post (send_request_of token phone_id numero texto) ;;
     Requests.raise_for_status response ;;
     print [Lit "✅ Mensagem enviada para "; StrOf numero])
    (fun e =>
       print [Lit "❌ "; Lit "Erro ao enviar no WhatsApp para "; StrOf numero;
              Lit ": "; StrExn e] ;;
       log_system_event supabase "ERROR" "API_SEND"
         [Lit "Erro ao enviar no WhatsApp para "; StrOf numero; Lit ": "; StrExn e]
         (ResponseOf e)) w.
Proof.
  intros Ht Hp. apply String.eqb_neq in Ht, Hp.
  unfold enviar_mensagem_whatsapp, unset. rewrite Ht, Hp. reflexivity.
Qed.

(** X3. With both credentials set, [enviar_mensagem_whatsapp] makes
    exactly one post, whatever the platform answers: the request goes to
    the channel's messages URL with the bearer token and carries the
    recipient and the text; there is no second attempt.  It never raises
    and writes no lead and no message. *)
Theorem enviar_mensagem_whatsapp_posts_once :
  forall supabase token phone_id numero texto w,
    token <> "" ->
    phone_id <> "" ->
    exists w',
      enviar_mensagem_whatsapp supabase (Some token) (Some phone_id) numero texto w
        = (Ok tt, w') /\
      net_calls w' = (net_calls w ++ [send_request_of token phone_id numero texto])%list /\
      net_script w' = tl (net_script w) /\
      leads w' = leads w /\ messages w' = messages w.
Proof.
  intros supabase token phone_id numero texto w Ht Hp.
  rewrite enviar_mensagem_whatsapp_configured by assumption.
  generalize (send_request_of token phone_id numero texto). intros r.
  unfold try_except, bind, Requests.post, Requests.raise_for_status, print, lift, ret.
  cbv beta.
  assert (Hlog : forall e w0, exists w',
             log_system_event supabase "ERROR" "API_SEND"
               [Lit "Erro ao enviar no WhatsApp para "; StrOf numero; Lit ": "; StrExn e]
               (ResponseOf e) w0 = (Ok tt, w') /\
             net_calls w' = net_calls w0 /\ net_script w' = net_script w0 /\
             leads w' = leads w0 /\ messages w' = messages w0).
  { intros e w0.
    destruct (log_system_event_returns supabase "ERROR" "API_SEND"
                [Lit "Erro ao enviar no WhatsApp para "; StrOf numero; Lit ": ";
                 StrExn e] (ResponseOf e) w0) as (w' & E & _ & Hl & Hm).
    pose proof (log_system_event_off_the_network supabase "ERROR" "API_SEND"
                [Lit "Erro ao enviar no WhatsApp para "; StrOf numero; Lit ": ";
                 StrExn e] (ResponseOf e) w0) as [Hc Hs].
    rewrite E in Hc, Hs. exists w'. tauto. }
  destruct (net_script w) as [|[st|] script]; simpl.
  - eexists. split; [reflexivity|]. simpl. tauto.
  - destruct ((400 <=? st) && (st <? 600)); simpl.
    + match goal with
      | |- exists w', log_system_event _ _ _ _ _ ?w0 = _ /\ _ =>
          destruct (Hlog (Py.HTTPError st) w0) as (w' & E & Hc & Hs & Hl & Hm)
      end.
      exists w'. split; [exact E|]. rewrite Hc, Hs, Hl, Hm. simpl. tauto.
    + eexists. split; [reflexivity|]. simpl. tauto.
  - match goal with
    | |- exists w', log_system_event _ _ _ _ _ ?w0 = _ /\ _ =>
        destruct (Hlog Py.ConnectionError w0) as (w' & E & Hc & Hs & Hl & Hm)
    end.
    exists w'. split; [exact E|]. rewrite Hc, Hs, Hl, Hm. simpl. tauto.
Qed.

Lemma enviar_mensagem_whatsapp_posts_once_witness :
  exists w',
    enviar_mensagem_whatsapp true (Some "token") (Some "1055") (JStr "+15551234")
                             (JStr "Hi back") Examples.with_ana = (Ok tt, w') /\
    List.length (net_calls w') = 1%nat /\ net_script w' = [].
Proof.
  destruct (enviar_mensagem_whatsapp_posts_once true "token" "1055"
              (JStr "+15551234") (JStr "Hi back") Examples.with_ana)
    as (w' & E & Hc & Hs & _); [discriminate | discriminate |].
  exists w'. split; [exact E|]. rewrite Hc, Hs. split; reflexivity.
Defined.

(** X4. A send the platform does not refuse is silent: with both
    credentials set and an answer outside 400 to 599 (a 3xx answer
    included), the store is not called at all, so the log is unchanged
    whatever the store's state, and only the success line is printed. *)
Theorem enviar_mensagem_whatsapp_success_is_silent :
  forall supabase token phone_id numero texto w,
    token <> "" ->
    phone_id <> "" ->
    match net_script w with
    | r :: _ => send_error r = None
    | [] => True
    end ->
    exists w',
      enviar_mensagem_whatsapp supabase (Some token) (Some phone_id) numero texto w
        = (Ok tt, w') /\
      system_logs w' = system_logs w /\
      store_faults w' = store_faults w /\
      stdout w' = (stdout w ++ [[Lit "✅ Mensagem enviada para "; StrOf numero]])%list.
Proof.
  intros supabase token phone_id numero texto w Ht Hp Hreply.
  rewrite enviar_mensagem_whatsapp_configured by assumption.
  generalize (send_request_of token phone_id numero texto). intros r.
  unfold try_except, bind, Requests.post, Requests.raise_for_status, print, lift, ret.
  cbv beta.
  destruct (net_script w) as [|[st|] script]; simpl in *.
  - eexists. split; [reflexivity|]. simpl. tauto.
  - destruct ((400 <=? st) && (st <? 600)); [discriminate|]. simpl.
    eexists. split; [reflexivity|]. simpl. tauto.
  - discriminate.
Qed.

Lemma enviar_mensagem_whatsapp_success_is_silent_witness :
  let w := with_net [Responded 302] [] (with_store_faults [true] Examples.with_ana) in
  send_error (Responded 302) = None /\
  system_logs
    (snd (enviar_mensagem_whatsapp true (Some "token") (Some "1055")
            (JStr "+15551234") (JStr "Hi back") w)) = [].
Proof.
  split; [reflexivity|].
  destruct (enviar_mensagem_whatsapp_success_is_silent true "token" "1055"
              (JStr "+15551234") (JStr "Hi back")
              (with_net [Responded 302] []
                 (with_store_faults [true] Examples.with_ana)))
    as (w' & E & Hlog & _); [discriminate | discriminate | reflexivity |].
  rewrite E. simpl. rewrite Hlog. reflexivity.
Defined.

(** X5. A send the platform refuses, or that does not reach it, is
    reported in the log and nowhere else: with both credentials set and
    the store configured and answering, exactly one entry is appended, an
    error of source API_SEND whose message names the recipient and the
    exception and whose metadata is the exception's response. *)
Theorem enviar_mensagem_whatsapp_failure_is_logged :
  forall token phone_id numero texto w r script e,
    token <> "" ->
    phone_id <> "" ->
    net_script w = r :: script ->
    send_error r = Some e ->
    store_faults w = [] ->
    exists w',
      enviar_mensagem_whatsapp true (Some token) (Some phone_id) numero texto w
        = (Ok tt, w') /\
      system_logs w' =
        (system_logs w ++
         [mkLog "ERROR" "API_SEND"
                [Lit "Erro ao enviar no WhatsApp para "; StrOf numero; Lit ": ";
                 StrExn e]
                (ResponseOf e)])%list.
Proof.
  intros token phone_id numero texto w r script e Ht Hp Hscript Herr Hcalm.
  rewrite enviar_mensagem_whatsapp_configured by assumption.
  generalize (send_request_of token phone_id numero texto). intros rq.
  unfold try_except, bind, Requests.post, Requests.raise_for_status, print, lift, ret.
  cbv beta. rewrite Hscript.
  destruct r as [st|]; simpl in Herr |- *.
  - destruct ((400 <=? st) && (st <? 600)); [|discriminate].
    injection Herr as <-. simpl.
    rewrite log_system_event_calm by exact Hcalm.
    eexists. split; reflexivity.
  - injection Herr as <-.
    rewrite log_system_event_calm by exact Hcalm.
    eexists. split; reflexivity.
Qed.

Lemma enviar_mensagem_whatsapp_failure_is_logged_witness :
  send_error (Responded 500) = Some (Py.HTTPError 500) /\
  exists w',
    enviar_mensagem_whatsapp true (Some "token") (Some "1055") (JStr "+15551234")
                             (JStr "Hi back") Examples.with_ana = (Ok tt, w') /\
    map log_metadata (system_logs w') = [ResponseOf (Py.HTTPError 500)].
Proof.
  split; [reflexivity|].
  destruct (enviar_mensagem_whatsapp_failure_is_logged "token" "1055"
              (JStr "+15551234") (JStr "Hi back") Examples.with_ana
              (Responded 500) [] (Py.HTTPError 500))
    as (w' & E & Hlog);
    [discriminate | discriminate | reflexivity | reflexivity | reflexivity |].
  exists w'. split; [exact E|]. rewrite Hlog. reflexivity.
Defined.

(** Replaces a call of the logger by the world it returns. *)
Ltac settle_log :=
  repeat match goal with
         | |- context [log_system_event ?s ?lv ?src ?msg ?meta ?w0] =>
             let w1 := fresh "w1" in
             let E := fresh "E" in
             destruct (log_system_event_returns s lv src msg meta w0)
               as (w1 & E & _ & ? & ?);
             rewrite E; simpl in *
         end.

(** ** The lead resolver *)

Lemma get_or_create_lead_hit phone name w found others :
  store_faults w = [] ->
  filter (fun l => Py.eqb (lead_phone l) phone) (leads w) = found :: others ->
  get_or_create_lead true phone name w = (Ok (Some found), w).
Proof.
  intros Hcalm Hfound.
  unfold get_or_create_lead. simpl negb. cbv iota.
  apply try_ok. unfold Store.select_leads_by_phone.
  unfold bind at 1. unfold bind at 1.
  rewrite (execute_calm w Hcalm), Hfound. reflexivity.
Qed.

(** X6. On a hit the resolver only reads: with the store configured and
    answering, the first lead the store returns for the address is
    returned as it is stored and the world is left exactly as it was; the
    name passed in is not used. *)
Theorem get_or_create_lead_returns_existing :
  forall phone name w found others,
    store_faults w = [] ->
    filter (fun l => Py.eqb (lead_phone l) phone) (leads w) = found :: others ->
    get_or_create_lead true phone name w = (Ok (Some found), w).
Proof.
  intros phone name w found others Hcalm Hfound.
  exact (get_or_create_lead_hit phone name w found others Hcalm Hfound).
Qed.

Lemma get_or_create_lead_returns_existing_witness :
  get_or_create_lead true (JStr "+15551234") (JStr "Another name") Examples.with_ana
  = (Ok (Some Examples.ana), Examples.with_ana).
Proof.
  exact (get_or_create_lead_returns_existing (JStr "+15551234") (JStr "Another name")
           Examples.with_ana Examples.ana [] eq_refl eq_refl).
Defined.

(** X7. When the lookup of the lead fails at the store, the resolver
    returns [None] without raising and creates nothing; it tries to log
    the failure under SYSTEM, and the entry is written when that next
    store call is answered. *)
Theorem get_or_create_lead_store_failure :
  forall phone name w rest,
    store_faults w = true :: rest ->
    let entry := mkLog "ERROR" "SYSTEM"
                       [Lit "Falha ao criar/buscar lead: "; StrExn Py.APIError]
                       NoMetadata in
    exists w',
      get_or_create_lead true phone name w = (Ok None, w') /\
      leads w' = leads w /\ messages w' = messages w /\
      (system_logs w' = system_logs w \/
       system_logs w' = (system_logs w ++ [entry])%list) /\
      (rest = [] -> system_logs w' = (system_logs w ++ [entry])%list).
Proof.
  intros phone name w rest Hfault entry.
  unfold get_or_create_lead, Store.select_leads_by_phone, Store.execute.
  unfold try_except, bind, print, ret. simpl. rewrite Hfault. simpl.
  match goal with
  | |- context [log_system_event true ?lv ?src ?msg ?meta ?w0] =>
      destruct (log_system_event_returns true lv src msg meta w0)
        as (w1 & E & Hlog & Hl & Hm);
      pose proof (log_system_event_calm lv src msg meta w0) as Hcalm
  end.
  rewrite E in *. exists w1. split; [reflexivity|].
  split; [exact Hl|]. split; [exact Hm|]. split; [exact Hlog|].
  intros ->. specialize (Hcalm eq_refl). injection Hcalm as ->. reflexivity.
Qed.

Lemma get_or_create_lead_store_failure_witness :
  let w := with_store_faults [true] Examples.with_ana in
  exists w',
    get_or_create_lead true (JStr "+15551234") (JStr "Ana") w = (Ok None, w') /\
    leads w' = [Examples.ana] /\ List.length (system_logs w') = 1%nat.
Proof.
  destruct (get_or_create_lead_store_failure (JStr "+15551234") (JStr "Ana")
              (with_store_faults [true] Examples.with_ana) [] eq_refl)
    as (w' & E & Hl & _ & _ & Hlog).
  exists w'. split; [exact E|]. split; [exact Hl|].
  rewrite (Hlog eq_refl). reflexivity.
Defined.

Lemma filter_nil_unknown phone w :
  filter (fun l => Py.eqb (lead_phone l) phone) (leads w) = [] -> unknown phone w.
Proof.
  unfold unknown. induction (leads w) as [|l ls IH]; simpl; intros H x Hx.
  - destruct Hx.
  - destruct (Py.eqb (lead_phone l) phone) eqn:E; [discriminate|].
    destruct Hx as [<- | Hx]; [exact E | exact (IH H x Hx)].
Qed.

(** X8. Whatever the store does, the resolver changes the table of leads
    in one way only: it appends the one lead it returns, a lead of the
    address asked for, and only when no lead of the store had that
    address.  In every other case, a failure at any step included, the
    table is as it was. *)
Theorem get_or_create_lead_adds_only_new :
  forall supabase phone name w,
    let run := get_or_create_lead supabase phone name w in
    leads (snd run) = leads w \/
    exists new,
      fst run = Ok (Some new) /\
      leads (snd run) = (leads w ++ [new])%list /\
      lead_phone new = phone /\
      unknown phone w.
Proof.
  intros supabase phone name w run. subst run.
  unfold get_or_create_lead, Store.select_leads_by_phone,
    Store.select_first_stage_id, Store.insert_lead, Store.execute.
  unfold try_except, bind, print, lift, ret.
  destruct supabase; [|left; reflexivity]. simpl negb. cbv iota beta.
  destruct (store_faults w) as [|[] [|[] [|[] faults]]] eqn:E; simpl; rewrite ?E; simpl;
    (destruct (filter (fun l => Py.eqb (lead_phone l) phone) (leads w))
       as [|found others] eqn:F; [apply filter_nil_unknown in F|]);
    simpl; rewrite ?E; simpl;
    try (destruct (Store.order_by_position (pipeline_stages w)) as [|st sts]; simpl;
         try destruct (Py.truthy (stage_id st)); simpl; rewrite ?E; simpl);
    settle_log;
    first [ left; reflexivity
          | left; assumption
          | right; eexists; repeat split; exact F ].
Qed.

(** ** The conversation recorder when the store fails *)

(** X9. When the insert of the message raises at the store,
    [salvar_mensagem] returns normally: no message is written, the leads
    are untouched, and the failure is logged under SYSTEM once the store
    answers again. *)
Theorem salvar_mensagem_insert_failure :
  forall lid content direction w,
    Py.truthy lid = true ->
    store_faults w = [true] ->
    exists w',
      salvar_mensagem true lid content direction w = (Ok tt, w') /\
      messages w' = messages w /\
      leads w' = leads w /\
      system_logs w' =
        (system_logs w ++
         [mkLog "ERROR" "SYSTEM"
                [Lit "Falha ao salvar mensagem: "; StrExn Py.APIError] NoMetadata])%list.
Proof.
  intros lid content direction w Hlid Hfault.
  unfold salvar_mensagem, Store.insert_message, Store.execute.
  unfold try_except, bind, print. rewrite Hlid. simpl. rewrite Hfault. simpl.
  rewrite log_system_event_calm by reflexivity.
  eexists. split; [reflexivity|]. simpl. tauto.
Qed.

Lemma salvar_mensagem_insert_failure_witness :
  let w := with_store_faults [true] Examples.with_ana in
  exists w',
    salvar_mensagem true (JInt 42) (JStr "Hello") "inbound" w = (Ok tt, w') /\
    messages w' = [] /\ List.length (system_logs w') = 1%nat.
Proof.
  destruct (salvar_mensagem_insert_failure (JInt 42) (JStr "Hello") "inbound"
              (with_store_faults [true] Examples.with_ana) eq_refl eq_refl)
    as (w' & E & Hm & _ & Hlog).
  exists w'. split; [exact E|]. split; [exact Hm|]. rewrite Hlog. reflexivity.
Defined.

(** X10. The insert of an inbound message and the update of its lead are
    two store calls with nothing around them: when the insert is answered
    and the update raises, the message row stays, with status "read", the
    lead keeps its former last-message fields, and the failure is logged
    under SYSTEM. *)
Theorem salvar_mensagem_update_failure :
  forall lid content w,
    Py.truthy lid = true ->
    store_faults w = [false; true] ->
    exists w',
      salvar_mensagem true lid content "inbound" w = (Ok tt, w') /\
      messages w' = (messages w ++ [mkMessage lid content "inbound" "text" "read"])%list /\
      leads w' = leads w /\
      system_logs w' =
        (system_logs w ++
         [mkLog "ERROR" "SYSTEM"
                [Lit "Falha ao salvar mensagem: "; StrExn Py.APIError] NoMetadata])%list.
Proof.
  intros lid content w Hlid Hfault.
  unfold salvar_mensagem, Store.insert_message, Store.update_last_message,
    Store.execute.
  unfold try_except, bind, print. rewrite Hlid. simpl. rewrite Hfault. simpl.
  rewrite log_system_event_calm by reflexivity.
  eexists. split; [reflexivity|]. simpl. tauto.
Qed.

Lemma salvar_mensagem_update_failure_witness :
  let w := with_store_faults [false; true] Examples.with_ana in
  exists w',
    salvar_mensagem true (JInt 42) (JStr "Hello") "inbound" w = (Ok tt, w') /\
    List.length (messages w') = 1%nat /\ leads w' = [Examples.ana].
Proof.
  destruct (salvar_mensagem_update_failure (JInt 42) (JStr "Hello")
              (with_store_faults [false; true] Examples.with_ana) eq_refl eq_refl)
    as (w' & E & Hm & Hl & _).
  exists w'. split; [exact E|]. rewrite Hm, Hl. split; reflexivity.
Defined.

Lemma touch_keeps_core content l : lead_core (Store.touch content l) = lead_core l.
Proof. reflexivity. Qed.

Lemma map_touch_keeps_cores lid content ls :
  map lead_core
      (map (fun l => if Py.eqb (lead_id l) lid then Store.touch content l else l) ls)
  = map lead_core ls.
Proof.
  rewrite map_map. apply map_ext. intros l.
  destruct (Py.eqb (lead_id l) lid); reflexivity.
Qed.

Lemma salvar_mensagem_cores supabase lid content direction w :
  map lead_core (leads (snd (salvar_mensagem supabase lid content direction w))) =
  map lead_core (leads w).
Proof.
  unfold salvar_mensagem.
  destruct (negb supabase || negb (Py.truthy lid)); [reflexivity|].
  unfold Store.insert_message, Store.update_last_message, Store.execute.
  unfold try_except, bind, print, ret.
  destruct (store_faults w) as [|[] [|[] faults]] eqn:E; simpl;
    destruct (direction =? "inbound")%string; simpl; rewrite ?E; simpl;
    settle_log;
    first [ reflexivity
          | apply map_touch_keeps_cores
          | f_equal; assumption ].
Qed.

(** X11. Whatever the store does, [salvar_mensagem] neither adds nor
    removes a lead and never changes a lead's key, name, address, stage,
    unread counter or custom fields: of a lead it writes the two
    last-message columns only.  In particular the unread counter is not
    incremented by an inbound message. *)
Theorem salvar_mensagem_keeps_lead_cores :
  forall supabase lid content direction w,
    map lead_core (leads (snd (salvar_mensagem supabase lid content direction w))) =
    map lead_core (leads w).
Proof.
  intros. apply salvar_mensagem_cores.
Qed.

(** ** The outbound endpoint *)

(** X12. A send request whose phone or text is absent, null or empty is
    refused with status 400 before anything is done: nothing is posted,
    nothing is recorded or logged, the world is the one before. *)
Theorem api_send_message_rejects_missing :
  forall supabase token phone_id data phone text w,
    Py.get data "phone" JNull = Ok phone ->
    Py.get data "text" JNull = Ok text ->
    Py.truthy phone = false \/ Py.truthy text = false ->
    api_send_message supabase token phone_id data w = (Ok missing_fields, w).
Proof.
  intros supabase token phone_id data phone text w Hphone Htext Hmissing.
  destruct data as [ | | | | | items]; try discriminate Hphone.
  unfold api_send_message. rewrite Hphone, Htext.
  assert (E : negb (Py.truthy phone) || negb (Py.truthy text) = true).
  { destruct Hmissing as [-> | ->]; [reflexivity | apply orb_true_r]. }
  unfold bind, lift. simpl.
  destruct (Py.lookup "lead_id" items); rewrite E; reflexivity.
Qed.

Lemma api_send_message_rejects_missing_witness :
  let data := JObj [("phone", JStr ""); ("text", JStr "Hi back")] in
  api_send_message true (Some "token") (Some "1055") data Examples.with_ana
  = (Ok missing_fields, Examples.with_ana).
Proof.
  exact (api_send_message_rejects_missing true (Some "token") (Some "1055")
           (JObj [("phone", JStr ""); ("text", JStr "Hi back")])
           (JStr "") (JStr "Hi back") Examples.with_ana
           eq_refl eq_refl (or_introl eq_refl)).
Defined.

(** X13. A body that is JSON but not an object makes the first
    [data.get] raise [AttributeError]; nothing in the handler catches it,
    so it leaves the handler, with the world untouched. *)
Theorem api_send_message_not_an_object :
  forall supabase token phone_id data w,
    (forall items, data <> JObj items) ->
    api_send_message supabase token phone_id data w = (Raise Py.AttributeError, w).
Proof.
  intros supabase token phone_id data w Hshape.
  destruct data as [ | | | | | items]; try reflexivity.
  exfalso. exact (Hshape items eq_refl).
Qed.

Lemma api_send_message_not_an_object_witness :
  api_send_message true (Some "token") (Some "1055") (JArr []) Examples.with_ana
  = (Raise Py.AttributeError, Examples.with_ana).
Proof.
  apply (api_send_message_not_an_object true (Some "token") (Some "1055") (JArr [])
           Examples.with_ana).
  intros items. discriminate.
Defined.

(** The handler once its three fields are read and the first two are
    there. *)
Lemma api_send_message_run supabase token phone_id data phone text lid w :
  Py.get data "phone" JNull = Ok phone ->
  Py.get data "text" JNull = Ok text ->
  Py.get data "lead_id" JNull = Ok lid ->
  Py.truthy phone = true ->
  Py.truthy text = true ->
  api_send_message supabase token phone_id data w =
  bind (enviar_mensagem_whatsapp supabase token phone_id phone text)
       (fun _ =>
          bind (if Py.truthy lid
                then salvar_mensagem supabase lid text "outbound"
                else ret tt)
               (fun _ => ret accepted)) w.
Proof.
  intros Hphone Htext Hlid Tphone Ttext.
  unfold api_send_message. rewrite Hphone, Htext, Hlid.
  unfold bind at 1 2 3. unfold lift. rewrite Tphone, Ttext. reflexivity.
Qed.



(** X15. With the store not configured the outbound endpoint still sends:
    given credentials, a request with phone and text makes its one post
    and is accepted, and no table is touched and no store call made, even
    when a lead identifier is supplied and even when the send fails. *)
Theorem api_send_message_persistence_disabled :
  forall token phone_id data phone text lid w,
    token <> "" ->
    phone_id <> "" ->
    Py.get data "phone" JNull = Ok phone ->
    Py.get data "text" JNull = Ok text ->
    Py.get data "lead_id" JNull = Ok lid ->
    Py.truthy phone = true ->
    Py.truthy text = true ->
    exists w',
      api_send_message false (Some token) (Some phone_id) data w = (Ok accepted, w') /\
      net_calls w' = (net_calls w ++ [send_request_of token phone_id phone text])%list /\
      leads w' = leads w /\ messages w' = messages w /\
      system_logs w' = system_logs w /\ store_faults w' = store_faults w.
Proof.
  intros token phone_id data phone text lid w Ht Hp Hphone Htext Hlid Tphone Ttext.
  rewrite (api_send_message_run _ _ _ _ _ _ _ _ Hphone Htext Hlid Tphone Ttext).
  unfold bind at 1.
  rewrite enviar_mensagem_whatsapp_configured by assumption.
  generalize (send_request_of token phone_id phone text). intros r.
  assert (Hrec : forall w0, (if Py.truthy lid
                             then salvar_mensagem false lid text "outbound"
                             else ret tt) w0 = (Ok tt, w0)).
  { intros w0. destruct (Py.truthy lid); reflexivity. }
  unfold try_except, bind, Requests.post, Requests.raise_for_status, print, lift, ret.
  cbv beta.
  destruct (net_script w) as [|[st|] script]; simpl;
    try destruct ((400 <=? st) && (st <? 600)); simpl;
    rewrite Hrec; eexists; (split; [reflexivity|]); simpl; tauto.
Qed.

Lemma api_send_message_persistence_disabled_witness :
  exists w',
    api_send_message false (Some "token") (Some "1055") Examples.send_request
                     Examples.with_ana = (Ok accepted, w') /\
    List.length (net_calls w') = 1%nat /\ messages w' = [] /\ system_logs w' = [].
Proof.
  destruct (api_send_message_persistence_disabled "token" "1055"
              Examples.send_request (JStr "+15551234") (JStr "Hi back") (JInt 42)
              Examples.with_ana)
    as (w' & E & Hc & _ & Hm & Hlog & _);
    try discriminate; try reflexivity.
  exists w'. split; [exact E|]. rewrite Hc. repeat split; assumption.
Defined.

(** ** The inbound endpoint on a text message *)

Lemma webhook_post_text supabase data numero corpo nome w :
  read_event data = Ok (TextMessage numero corpo nome) ->
  webhook_post supabase data w =
  bind (deliver supabase numero corpo nome) (fun _ => ret acknowledged) w.
Proof.
  intros Hread. rewrite webhook_post_reads, Hread. simpl after_reading.
  apply bind_congr. apply try_never_raises, deliver_never_raises.
Qed.

(** The run of the endpoint on a text message of a known address. *)
Lemma webhook_post_known_run data numero corpo nome w found others :
  read_event data = Ok (TextMessage numero corpo nome) ->
  store_faults w = [] ->
  filter (fun l => Py.eqb (lead_phone l) numero) (leads w) = found :: others ->
  Py.truthy (lead_id found) = true ->
  exists w',
    webhook_post true data w = (Ok acknowledged, w') /\
    messages w' =
      (messages w ++ [mkMessage (lead_id found) corpo "inbound" "text" "read"])%list /\
    leads w' = map (fun l => if Py.eqb (lead_id l) (lead_id found)
                             then Store.touch corpo l else l) (leads w) /\
    system_logs w' = system_logs w /\
    store_faults w' = [] /\
    pipeline_stages w' = pipeline_stages w /\
    lead_seq w' = lead_seq w.
Proof.
  intros Hread Hcalm Hfound Hkey.
  rewrite (webhook_post_text _ _ _ _ _ _ Hread).
  unfold deliver. unfold bind at 1 2. unfold print at 1. unfold bind at 1.
  rewrite (get_or_create_lead_hit numero nome _ found others); [| exact Hcalm | exact Hfound].
  rewrite salvar_mensagem_inbound_calm; [| exact Hkey | exact Hcalm].
  eexists. split; [reflexivity|]. simpl. repeat split. exact Hcalm.
Qed.

(** The run of the endpoint on the first text message of an address. *)
Lemma webhook_post_first_run data numero corpo nome w st rest :
  read_event data = Ok (TextMessage numero corpo nome) ->
  store_faults w = [] ->
  unknown numero w ->
  Store.order_by_position (pipeline_stages w) = st :: rest ->
  Py.truthy (stage_id st) = true ->
  lead_seq w <> 0 ->
  exists w',
    webhook_post true data w = (Ok acknowledged, w') /\
    messages w' =
      (messages w ++ [mkMessage (JInt (lead_seq w)) corpo "inbound" "text" "read"])%list /\
    leads w' = map (fun l => if Py.eqb (lead_id l) (JInt (lead_seq w))
                             then Store.touch corpo l else l)
                   (leads w ++ [first_lead w numero nome st]) /\
    system_logs w' = system_logs w /\
    store_faults w' = [] /\
    pipeline_stages w' = pipeline_stages w.
Proof.
  intros Hread Hcalm Hnew Hfirst Hkey Hseq.
  rewrite (webhook_post_text _ _ _ _ _ _ Hread).
  unfold deliver. unfold bind at 1 2. unfold print at 1. unfold bind at 1.
  rewrite (get_or_create_lead_new numero nome _ st rest);
    [| exact Hcalm | exact Hnew | exact Hfirst | exact Hkey].
  cbv zeta. cbv iota beta.
  rewrite salvar_mensagem_inbound_calm; [| | exact Hcalm].
  - eexists. split; [reflexivity|]. simpl. repeat split. exact Hcalm.
  - simpl. apply negb_true_iff. apply Z.eqb_neq. exact Hseq.
Qed.

(** X16. A text message from an address the store knows is recorded
    under the lead found, the first the store returns for the address:
    one inbound message of status "read" carrying that lead's key; the
    leads of that key get the text as their last message; no lead is
    created, the display name of the event is not written anywhere, and
    nothing is logged. *)
Theorem webhook_post_known_lead :
  forall data numero corpo nome w found others,
    read_event data = Ok (TextMessage numero corpo nome) ->
    store_faults w = [] ->
    filter (fun l => Py.eqb (lead_phone l) numero) (leads w) = found :: others ->
    Py.truthy (lead_id found) = true ->
    exists w',
      webhook_post true data w = (Ok acknowledged, w') /\
      messages w' =
        (messages w ++ [mkMessage (lead_id found) corpo "inbound" "text" "read"])%list /\
      leads w' = map (fun l => if Py.eqb (lead_id l) (lead_id found)
                               then Store.touch corpo l else l) (leads w) /\
      map lead_core (leads w') = map lead_core (leads w) /\
      system_logs w' = system_logs w.
Proof.
  intros data numero corpo nome w found others Hread Hcalm Hfound Hkey.
  destruct (webhook_post_known_run data numero corpo nome w found others
              Hread Hcalm Hfound Hkey) as (w' & E & Hm & Hl & Hlog & _).
  exists w'. split; [exact E|]. split; [exact Hm|]. split; [exact Hl|].
  split; [|exact Hlog]. rewrite Hl. apply map_touch_keeps_cores.
Qed.

Lemma webhook_post_known_lead_witness :
  exists w',
    webhook_post true (Examples.envelope [Examples.hello]) Examples.with_ana
      = (Ok acknowledged, w') /\
    leads w' = [Store.touch (JStr "Hello") Examples.ana] /\
    messages w' = [mkMessage (JInt 42) (JStr "Hello") "inbound" "text" "read"].
Proof.
  destruct (webhook_post_known_lead (Examples.envelope [Examples.hello])
              (JStr "+15551234") (JStr "Hello") (JStr "Ana") Examples.with_ana
              Examples.ana [] eq_refl eq_refl eq_refl eq_refl)
    as (w' & E & Hm & Hl & _).
  exists w'. split; [exact E|]. rewrite Hl, Hm. split; reflexivity.
Defined.

(** X17. The first text message of an address, the store configured and
    answering and holding a stage: the endpoint creates the lead, in a
    stage of least position and under the name of the event, records the
    message under the new lead's key with status "read", and sets the
    lead's last message to the text, all in the one request; nothing is
    logged.  (The key the store gives the lead must be one the code takes
    for a key: not zero.) *)
Theorem webhook_post_first_contact :
  forall data numero corpo nome w,
    read_event data = Ok (TextMessage numero corpo nome) ->
    store_faults w = [] ->
    unknown numero w ->
    pipeline_stages w <> [] ->
    stage_keys_set w ->
    lead_seq w <> 0 ->
    exists st w',
      least_stage st w /\
      webhook_post true data w = (Ok acknowledged, w') /\
      messages w' =
        (messages w ++ [mkMessage (JInt (lead_seq w)) corpo "inbound" "text" "read"])%list /\
      List.length (leads w') = S (List.length (leads w)) /\
      In (Store.touch corpo (first_lead w numero nome st)) (leads w') /\
      system_logs w' = system_logs w.
Proof.
  intros data numero corpo nome w Hread Hcalm Hnew Hstages Hkeys Hseq.
  destruct (Store.order_by_position (pipeline_stages w)) as [|st rest] eqn:E.
  - exfalso. exact (order_by_position_nonempty _ Hstages E).
  - pose proof (first_stage_least w st rest E) as Hleast.
    assert (Hkey : Py.truthy (stage_id st) = true) by (apply Hkeys, Hleast).
    destruct (webhook_post_first_run data numero corpo nome w st rest
                Hread Hcalm Hnew E Hkey Hseq) as (w' & Erun & Hm & Hl & Hlog & _).
    exists st, w'. split; [exact Hleast|]. split; [exact Erun|].
    split; [exact Hm|]. split; [|split; [|exact Hlog]].
    + rewrite Hl, length_map, length_app. simpl. lia.
    + rewrite Hl. apply in_map_iff. exists (first_lead w numero nome st).
      split.
      * change (lead_id (first_lead w numero nome st)) with (JInt (lead_seq w)).
        rewrite eqb_refl. reflexivity.
      * apply in_or_app. right. left. reflexivity.
Qed.

Lemma webhook_post_first_contact_witness :
  exists w',
    webhook_post true (Examples.envelope [Examples.hello]) Examples.fresh
      = (Ok acknowledged, w') /\
    List.length (leads w') = 1%nat /\
    messages w' = [mkMessage (JInt 1) (JStr "Hello") "inbound" "text" "read"].
Proof.
  assert (Hnew : unknown (JStr "+15551234") Examples.fresh) by (intros l []).
  assert (Hkeys : stage_keys_set Examples.fresh).
  { intros s [<- | [<- | []]]; reflexivity. }
  destruct (webhook_post_first_contact (Examples.envelope [Examples.hello])
              (JStr "+15551234") (JStr "Hello") (JStr "Ana") Examples.fresh
              eq_refl eq_refl Hnew)
    as (st & w' & _ & E & Hm & Hlen & _);
    [discriminate | exact Hkeys | discriminate |].
  exists w'. split; [exact E|]. split; [exact Hlen | exact Hm].
Defined.

(** ** Two messages of one address *)

Lemma filter_phone_map_touch phone lid content ls :
  filter (fun l => Py.eqb (lead_phone l) phone)
         (map (fun l => if Py.eqb (lead_id l) lid then Store.touch content l else l) ls)
  = map (fun l => if Py.eqb (lead_id l) lid then Store.touch content l else l)
        (filter (fun l => Py.eqb (lead_phone l) phone) ls).
Proof.
  induction ls as [|l ls IH]; simpl; [reflexivity|].
  assert (E : lead_phone (if Py.eqb (lead_id l) lid then Store.touch content l else l)
              = lead_phone l).
  { destruct (Py.eqb (lead_id l) lid); reflexivity. }
  rewrite E. destruct (Py.eqb (lead_phone l) phone); simpl; rewrite IH; reflexivity.
Qed.

(** X18. Two text messages of one unknown address, handled one after the
    other, leave one lead for the address, not two: the first request
    creates it, the second finds it, and both messages are recorded under
    its key, in order. *)
Theorem webhook_post_twice_one_lead :
  forall data1 data2 numero corpo1 corpo2 nome1 nome2 w,
    read_event data1 = Ok (TextMessage numero corpo1 nome1) ->
    read_event data2 = Ok (TextMessage numero corpo2 nome2) ->
    store_faults w = [] ->
    unknown numero w ->
    pipeline_stages w <> [] ->
    stage_keys_set w ->
    lead_seq w <> 0 ->
    exists w1 w2,
      webhook_post true data1 w = (Ok acknowledged, w1) /\
      webhook_post true data2 w1 = (Ok acknowledged, w2) /\
      List.length (leads w2) = S (List.length (leads w)) /\
      List.length (filter (fun l => Py.eqb (lead_phone l) numero) (leads w2)) = 1%nat /\
      messages w2 =
        (messages w ++
         [mkMessage (JInt (lead_seq w)) corpo1 "inbound" "text" "read";
          mkMessage (JInt (lead_seq w)) corpo2 "inbound" "text" "read"])%list.
Proof.
  intros data1 data2 numero corpo1 corpo2 nome1 nome2 w Hread1 Hread2 Hcalm Hnew
         Hstages Hkeys Hseq.
  destruct (Store.order_by_position (pipeline_stages w)) as [|st rest] eqn:E.
  { exfalso. exact (order_by_position_nonempty _ Hstages E). }
  assert (Hkey : Py.truthy (stage_id st) = true).
  { apply Hkeys. apply (first_stage_least w st rest E). }
  destruct (webhook_post_first_run data1 numero corpo1 nome1 w st rest
              Hread1 Hcalm Hnew E Hkey Hseq)
    as (w1 & E1 & Hm1 & Hl1 & _ & Hcalm1 & _).
  set (new := first_lead w numero nome1 st) in *.
  assert (Hfound : filter (fun l => Py.eqb (lead_phone l) numero) (leads w1)
                   = [Store.touch corpo1 new]).
  { rewrite Hl1, filter_phone_map_touch, filter_app, (unknown_filter _ _ Hnew).
    simpl. rewrite eqb_refl. simpl. rewrite ?eqb_refl, ?Z.eqb_refl. reflexivity. }
  assert (Hid : Py.truthy (lead_id (Store.touch corpo1 new)) = true).
  { simpl. apply negb_true_iff, Z.eqb_neq. exact Hseq. }
  destruct (webhook_post_known_run data2 numero corpo2 nome2 w1
              (Store.touch corpo1 new) [] Hread2 Hcalm1 Hfound Hid)
    as (w2 & E2 & Hm2 & Hl2 & _).
  exists w1, w2. split; [exact E1|]. split; [exact E2|]. split; [|split].
  - rewrite Hl2, length_map, Hl1, length_map, length_app. simpl. lia.
  - rewrite Hl2, filter_phone_map_touch, Hfound. reflexivity.
  - rewrite Hm2, Hm1, <- app_assoc. reflexivity.
Qed.

Lemma webhook_post_twice_one_lead_witness :
  exists w1 w2,
    webhook_post true (Examples.envelope [Examples.hello]) Examples.fresh
      = (Ok acknowledged, w1) /\
    webhook_post true (Examples.envelope [Examples.hello; Examples.photo]) w1
      = (Ok acknowledged, w2) /\
    List.length (leads w2) = 1%nat /\ List.length (messages w2) = 2%nat.
Proof.
  assert (Hnew : unknown (JStr "+15551234") Examples.fresh) by (intros l []).
  assert (Hkeys : stage_keys_set Examples.fresh).
  { intros s [<- | [<- | []]]; reflexivity. }
  destruct (webhook_post_twice_one_lead
              (Examples.envelope [Examples.hello])
              (Examples.envelope [Examples.hello; Examples.photo])
              (JStr "+15551234") (JStr "Hello") (JStr "Hello") (JStr "Ana") (JStr "Ana")
              Examples.fresh eq_refl eq_refl eq_refl Hnew)
    as (w1 & w2 & E1 & E2 & Hlen & _ & Hm);
    [discriminate | exact Hkeys | discriminate |].
  exists w1, w2. split; [exact E1|]. split; [exact E2|].
  split; [exact Hlen|]. rewrite Hm. reflexivity.
Defined.

(** ** The inbound endpoint at its edges *)

(** X19. With the store not configured the inbound endpoint is a no-op
    for the store and the network: every payload is acknowledged, no
    table is touched, no store call and no post is made, and nothing is
    logged, not even a malformed payload. *)
Theorem webhook_post_persistence_disabled :
  forall data w,
    exists w',
      webhook_post false data w = (Ok acknowledged, w') /\
      leads w' = leads w /\ messages w' = messages w /\
      system_logs w' = system_logs w /\ store_faults w' = store_faults w /\
      net_calls w' = net_calls w.
Proof.
  intros data w. rewrite webhook_post_reads.
  destruct (read_event data) as [[ | | t | numero corpo nome] | e];
    simpl after_reading;
    eexists; (split; [reflexivity|]); simpl; tauto.
Qed.

(** X20. A body that is JSON but neither an object, a list nor a string
    ([null], a boolean, a number) makes ['object' in data] raise
    [TypeError]; the handler catches it: the request is acknowledged, no
    lead or message is written and, the store configured and answering,
    one WEBHOOK_META error entry carrying the body is logged. *)
Theorem webhook_post_scalar_body :
  forall data w,
    (forall items, data <> JObj items) ->
    (forall xs, data <> JArr xs) ->
    (forall s, data <> JStr s) ->
    store_faults w = [] ->
    exists w',
      webhook_post true data w = (Ok acknowledged, w') /\
      leads w' = leads w /\ messages w' = messages w /\
      system_logs w' =
        (system_logs w ++
         [mkLog "ERROR" "WEBHOOK_META"
                [Lit "Falha no processamento: "; StrExn Py.TypeError]
                (Payload data)])%list.
Proof.
  intros data w Hobj Harr Hstr Hcalm.
  assert (Hread : read_event data = Raise Py.TypeError).
  { destruct data as [ | b | z | s | xs | items]; try reflexivity.
    - exfalso. exact (Hstr s eq_refl).
    - exfalso. exact (Harr xs eq_refl).
    - exfalso. exact (Hobj items eq_refl). }
  rewrite webhook_post_reads, Hread. simpl after_reading.
  unfold on_failure, bind, print. simpl.
  rewrite log_system_event_calm by exact Hcalm.
  eexists. split; [reflexivity|]. simpl. tauto.
Qed.

Lemma webhook_post_scalar_body_witness :
  exists w',
    webhook_post true JNull Examples.fresh = (Ok acknowledged, w') /\
    map log_metadata (system_logs w') = [Payload JNull].
Proof.
  destruct (webhook_post_scalar_body JNull Examples.fresh)
    as (w' & E & _ & _ & Hlog); try discriminate; try reflexivity.
  exists w'. split; [exact E|]. rewrite Hlog. reflexivity.
Defined.

(** The walk on an envelope whose first message is a well-formed text
    message, down to the contacts. *)
Lemma read_event_text_payload items fields rest numero body corpo :
  Py.lookup "messages" items = Some (JArr (JObj fields :: rest)) ->
  Py.lookup "type" fields = Some (JStr "text") ->
  Py.lookup "from" fields = Some numero ->
  Py.lookup "text" fields = Some (JObj body) ->
  Py.lookup "body" body = Some corpo ->
  read_event (payload_of (JObj items)) =
  (contacts <~ Py.get (JObj items) "contacts" (JArr [JObj []]) ;;
   contact <~ Py.first contacts ;;
   profile <~ Py.get contact "profile" (JObj []) ;;
   nome_perfil <~ Py.get profile "name" (JStr "Cliente") ;;
   Ok (TextMessage numero corpo nome_perfil)).
Proof.
  intros Hmsgs Htype Hfrom Htext Hbody.
  unfold read_event, payload_of. simpl.
  unfold Py.has_key. rewrite Hmsgs. simpl.
  rewrite Htype. simpl. rewrite Hfrom, Htext. simpl. rewrite Hbody. reflexivity.
Qed.

(** X21. A text message whose envelope names no contact is handled under
    the name "Cliente": with no ['contacts'] in the value, the first
    message of an unknown address creates its lead with that name. *)
Theorem webhook_post_default_name :
  forall items fields rest numero body corpo w,
    Py.lookup "messages" items = Some (JArr (JObj fields :: rest)) ->
    Py.lookup "type" fields = Some (JStr "text") ->
    Py.lookup "from" fields = Some numero ->
    Py.lookup "text" fields = Some (JObj body) ->
    Py.lookup "body" body = Some corpo ->
    Py.lookup "contacts" items = None ->
    store_faults w = [] ->
    unknown numero w ->
    pipeline_stages w <> [] ->
    stage_keys_set w ->
    lead_seq w <> 0 ->
    exists st w',
      least_stage st w /\
      webhook_post true (payload_of (JObj items)) w = (Ok acknowledged, w') /\
      In (Store.touch corpo (first_lead w numero (JStr "Cliente") st)) (leads w').
Proof.
  intros items fields rest numero body corpo w Hmsgs Htype Hfrom Htext Hbody Hnone
         Hcalm Hnew Hstages Hkeys Hseq.
  assert (Hread : read_event (payload_of (JObj items))
                  = Ok (TextMessage numero corpo (JStr "Cliente"))).
  { rewrite (read_event_text_payload items fields rest numero body corpo)
      by assumption.
    simpl. rewrite Hnone. reflexivity. }
  destruct (Store.order_by_position (pipeline_stages w)) as [|st sts] eqn:E.
  { exfalso. exact (order_by_position_nonempty _ Hstages E). }
  pose proof (first_stage_least w st sts E) as Hleast.
  assert (Hkey : Py.truthy (stage_id st) = true) by (apply Hkeys, Hleast).
  destruct (webhook_post_first_run _ numero corpo (JStr "Cliente") w st sts
              Hread Hcalm Hnew E Hkey Hseq) as (w' & Erun & _ & Hl & _).
  exists st, w'. split; [exact Hleast|]. split; [exact Erun|].
  rewrite Hl. apply in_map_iff. exists (first_lead w numero (JStr "Cliente") st).
  split.
  - change (lead_id (first_lead w numero (JStr "Cliente") st))
      with (JInt (lead_seq w)).
    rewrite eqb_refl. reflexivity.
  - apply in_or_app. right. left. reflexivity.
Qed.

Lemma webhook_post_default_name_witness :
  let fields := [("from", JStr "+15551234"); ("type", JStr "text");
                 ("text", JObj [("body", JStr "Hello")])] in
  let items := [("messages", JArr [JObj fields])] in
  exists w',
    webhook_post true (payload_of (JObj items)) Examples.fresh = (Ok acknowledged, w') /\
    map lead_name (leads w') = [JStr "Cliente"].
Proof.
  intros fields items.
  assert (Hnew : unknown (JStr "+15551234") Examples.fresh) by (intros l []).
  assert (Hkeys : stage_keys_set Examples.fresh).
  { intros s [<- | [<- | []]]; reflexivity. }
  destruct (webhook_post_default_name items fields [] (JStr "+15551234")
              [("body", JStr "Hello")] (JStr "Hello") Examples.fresh
              eq_refl eq_refl eq_refl eq_refl eq_refl eq_refl eq_refl Hnew)
    as (st & w' & _ & E & _);
    [discriminate | exact Hkeys | discriminate |].
  exists w'. split; [exact E|].
  assert (Ew : w' = snd (webhook_post true (payload_of (JObj items)) Examples.fresh)).
  { rewrite E. reflexivity. }
  rewrite Ew. reflexivity.
Defined.

(** X22. A well-formed text message is lost when its envelope carries an
    empty list of contacts: [contacts[0]] raises [IndexError] before the
    store is reached, so no lead is resolved and no message recorded; the
    request is acknowledged and, the store configured and answering, the
    failure is logged under WEBHOOK_META. *)
Theorem webhook_post_empty_contacts :
  forall items fields rest numero body corpo w,
    Py.lookup "messages" items = Some (JArr (JObj fields :: rest)) ->
    Py.lookup "type" fields = Some (JStr "text") ->
    Py.lookup "from" fields = Some numero ->
    Py.lookup "text" fields = Some (JObj body) ->
    Py.lookup "body" body = Some corpo ->
    Py.lookup "contacts" items = Some (JArr []) ->
    store_faults w = [] ->
    exists w',
      webhook_post true (payload_of (JObj items)) w = (Ok acknowledged, w') /\
      leads w' = leads w /\ messages w' = messages w /\
      system_logs w' =
        (system_logs w ++
         [mkLog "ERROR" "WEBHOOK_META"
                [Lit "Falha no processamento: "; StrExn Py.IndexError]
                (Payload (payload_of (JObj items)))])%list.
Proof.
  intros items fields rest numero body corpo w Hmsgs Htype Hfrom Htext Hbody Hempty
         Hcalm.
  assert (Hread : read_event (payload_of (JObj items)) = Raise Py.IndexError).
  { rewrite (read_event_text_payload items fields rest numero body corpo)
      by assumption.
    simpl. rewrite Hempty. reflexivity. }
  rewrite webhook_post_reads, Hread. simpl after_reading.
  unfold on_failure, bind, print. simpl.
  rewrite log_system_event_calm by exact Hcalm.
  eexists. split; [reflexivity|]. simpl. tauto.
Qed.

Lemma webhook_post_empty_contacts_witness :
  let fields := [("from", JStr "+15551234"); ("type", JStr "text");
                 ("text", JObj [("body", JStr "Hello")])] in
  let items := [("contacts", JArr []); ("messages", JArr [JObj fields])] in
  exists w',
    webhook_post true (payload_of (JObj items)) Examples.fresh = (Ok acknowledged, w') /\
    leads w' = [] /\ messages w' = [] /\ List.length (system_logs w') = 1%nat.
Proof.
  intros fields items.
  destruct (webhook_post_empty_contacts items fields [] (JStr "+15551234")
              [("body", JStr "Hello")] (JStr "Hello") Examples.fresh
              eq_refl eq_refl eq_refl eq_refl eq_refl eq_refl eq_refl)
    as (w' & E & Hl & Hm & Hlog).
  exists w'. split; [exact E|]. rewrite Hl, Hm, Hlog. repeat split.
Defined.

(** ** What no handler does to the store *)

Lemma extends_refl w : extends w w.
Proof.
  unfold extends. repeat split; exists []; rewrite app_nil_r; reflexivity.
Qed.

Lemma extends_trans w1 w2 w3 : extends w1 w2 -> extends w2 w3 -> extends w1 w3.
Proof.
  intros (Hs & (m & Hm) & (e & He) & (l & Hl)) (Hs' & (m' & Hm') & (e' & He') & (l' & Hl')).
  unfold extends. split; [congruence|]. split; [|split].
  - exists (m ++ m')%list. rewrite Hm', Hm, app_assoc. reflexivity.
  - exists (e ++ e')%list. rewrite He', He, app_assoc. reflexivity.
  - exists (l ++ l')%list. rewrite Hl', Hl, app_assoc. reflexivity.
Qed.

(** A world that differs from [w] in nothing the relation looks at. *)
Lemma extends_same w w' :
  pipeline_stages w' = pipeline_stages w ->
  messages w' = messages w ->
  system_logs w' = system_logs w ->
  map lead_core (leads w') = map lead_core (leads w) ->
  extends w w'.
Proof.
  intros Hs Hm He Hl. unfold extends. rewrite Hs, Hm, He, Hl.
  repeat split; exists []; rewrite app_nil_r; reflexivity.
Qed.

Lemma extends_execute : frames extends Store.execute.
Proof.
  intros w. unfold Store.execute.
  destruct (store_faults w) as [|[] faults]; apply extends_same; reflexivity.
Qed.

Lemma extends_print line : frames extends (print line).
Proof. intros w. apply extends_same; reflexivity. Qed.

Create HintDb extend.
#[local] Hint Resolve extends_refl extends_trans extends_execute extends_print : extend.

Ltac extend_step :=
  cbv zeta;
  match goal with
  | |- frames extends (bind _ _) =>
      apply frames_bind; [exact extends_trans | | intros ?]
  | |- frames extends (try_except _ _) =>
      apply frames_try; [exact extends_trans | | intros ?]
  | |- frames extends (ret _) => apply frames_ret; exact extends_refl
  | |- frames extends (lift _) => apply frames_lift; exact extends_refl
  | |- frames extends (if ?b then _ else _) => destruct b
  | |- frames extends (match ?x with _ => _ end) => destruct x
  | |- _ => solve [auto with extend]
  end.

Lemma extends_insert_log e : frames extends (Store.insert_log e).
Proof.
  unfold Store.insert_log. extend_step; [extend_step|].
  intros w. unfold extends. simpl. repeat split;
    first [ exists []; rewrite app_nil_r; reflexivity | eexists; reflexivity ].
Qed.

Lemma extends_select_leads phone : frames extends (Store.select_leads_by_phone phone).
Proof.
  unfold Store.select_leads_by_phone. extend_step; [extend_step|].
  intros w. apply extends_refl.
Qed.

Lemma extends_select_stage : frames extends Store.select_first_stage_id.
Proof.
  unfold Store.select_first_stage_id. extend_step; [extend_step|].
  intros w. apply extends_refl.
Qed.

Lemma extends_insert_lead d : frames extends (Store.insert_lead d).
Proof.
  unfold Store.insert_lead. extend_step; [extend_step|].
  intros w. unfold extends. simpl. rewrite map_app. repeat split;
    first [ exists []; rewrite app_nil_r; reflexivity | eexists; reflexivity ].
Qed.

Lemma extends_insert_message m : frames extends (Store.insert_message m).
Proof.
  unfold Store.insert_message. extend_step; [extend_step|].
  intros w. unfold extends. simpl. repeat split;
    first [ exists []; rewrite app_nil_r; reflexivity | eexists; reflexivity ].
Qed.

Lemma extends_update_last_message lid content :
  frames extends (Store.update_last_message lid content).
Proof.
  unfold Store.update_last_message. extend_step; [extend_step|].
  intros w. apply extends_same; try reflexivity.
  simpl. apply map_touch_keeps_cores.
Qed.

Lemma extends_post r : frames extends (Requests.post r).
Proof.
  intros w. unfold Requests.post.
  destruct (net_script w) as [|[st|] script]; apply extends_same; reflexivity.
Qed.

Lemma extends_raise_for_status r : frames extends (Requests.raise_for_status r).
Proof.
  unfold Requests.raise_for_status. destruct r as [st|].
  - destruct ((400 <=? st) && (st <? 600)); intros w; apply extends_refl.
  - intros w. apply extends_refl.
Qed.

#[local] Hint Resolve extends_insert_log extends_select_leads extends_select_stage
  extends_insert_lead extends_insert_message extends_update_last_message
  extends_post extends_raise_for_status : extend.

Lemma extends_log_system_event supabase level source message meta :
  frames extends (log_system_event supabase level source message meta).
Proof. unfold log_system_event. repeat extend_step. Qed.

#[local] Hint Resolve extends_log_system_event : extend.

Lemma extends_enviar_mensagem_whatsapp supabase token phone_id numero texto :
  frames extends (enviar_mensagem_whatsapp supabase token phone_id numero texto).
Proof. unfold enviar_mensagem_whatsapp. repeat extend_step. Qed.

Lemma extends_get_or_create_lead supabase phone name :
  frames extends (get_or_create_lead supabase phone name).
Proof. unfold get_or_create_lead. repeat extend_step. Qed.

Lemma extends_salvar_mensagem supabase lid content direction :
  frames extends (salvar_mensagem supabase lid content direction).
Proof. unfold salvar_mensagem. repeat extend_step. Qed.

#[local] Hint Resolve extends_enviar_mensagem_whatsapp extends_get_or_create_lead
  extends_salvar_mensagem : extend.

Lemma extends_webhook_post supabase data : frames extends (webhook_post supabase data).
Proof. unfold webhook_post. repeat extend_step. Qed.

Lemma extends_api_send_message supabase token phone_id data :
  frames extends (api_send_message supabase token phone_id data).
Proof. unfold api_send_message. repeat extend_step. Qed.

(** X23. No request writes the pipeline stages: after either handler, on
    any input and whatever the store and the platform do, the table of
    stages is the one before. *)
Theorem handlers_only_read_stages :
  forall supabase token phone_id data w,
    pipeline_stages (snd (webhook_post supabase data w)) = pipeline_stages w /\
    pipeline_stages (snd (api_send_message supabase token phone_id data w))
      = pipeline_stages w.
Proof.
  intros supabase token phone_id data w. split.
  - apply (extends_webhook_post supabase data w).
  - apply (extends_api_send_message supabase token phone_id data w).
Qed.

(** X24. Messages and log entries are only ever appended: after either
    handler, on any input and whatever the store and the platform do, the
    rows that were there are still there, unchanged and in place, with
    new rows, if any, after them. *)
Theorem handlers_append_only :
  forall supabase token phone_id data w,
    (exists ms es,
        messages (snd (webhook_post supabase data w)) = (messages w ++ ms)%list /\
        system_logs (snd (webhook_post supabase data w)) = (system_logs w ++ es)%list) /\
    (exists ms es,
        messages (snd (api_send_message supabase token phone_id data w))
          = (messages w ++ ms)%list /\
        system_logs (snd (api_send_message supabase token phone_id data w))
          = (system_logs w ++ es)%list).
Proof.
  intros supabase token phone_id data w. split.
  - destruct (extends_webhook_post supabase data w) as (_ & (ms & Hm) & (es & He) & _).
    exists ms, es. split; assumption.
  - destruct (extends_api_send_message supabase token phone_id data w)
      as (_ & (ms & Hm) & (es & He) & _).
    exists ms, es. split; assumption.
Qed.

Lemma salvar_mensagem_outbound_leads supabase lid content w :
  leads (snd (salvar_mensagem supabase lid content "outbound" w)) = leads w.
Proof.
  unfold salvar_mensagem.
  destruct (negb supabase || negb (Py.truthy lid)); [reflexivity|].
  unfold Store.insert_message, Store.execute.
  unfold try_except, bind, print. simpl.
  destruct (store_faults w) as [|[] faults]; simpl; try reflexivity.
  after_log.
Qed.

(** X25. No request removes a lead or rewrites what its creation set: the
    inbound endpoint leaves every lead that was there in place with its
    key, name, address, stage, unread counter and custom fields (so the
    unread counter of a known lead is not incremented by a new message),
    adding leads only at the end; the outbound endpoint leaves the table
    of leads exactly as it was. *)
Theorem handlers_keep_leads :
  forall supabase token phone_id data w,
    (exists added,
        map lead_core (leads (snd (webhook_post supabase data w)))
        = (map lead_core (leads w) ++ added)%list) /\
    leads (snd (api_send_message supabase token phone_id data w)) = leads w.
Proof.
  intros supabase token phone_id data w. split.
  - apply (extends_webhook_post supabase data w).
  - unfold api_send_message, bind, lift, ret.
    destruct (Py.get data "phone" JNull) as [phone|]; [|reflexivity].
    destruct (Py.get data "text" JNull) as [text|]; [|reflexivity].
    destruct (Py.get data "lead_id" JNull) as [lid|]; [|reflexivity].
    destruct (negb (Py.truthy phone) || negb (Py.truthy text)); [reflexivity|].
    pose proof (enviar_mensagem_whatsapp_keeps_records supabase token phone_id
                  phone text w) as [Hl _].
    destruct (enviar_mensagem_whatsapp supabase token phone_id phone text w)
      as [[[]|e] w1]; simpl in Hl |- *; [|exact Hl].
    destruct (Py.truthy lid).
    + pose proof (salvar_mensagem_outbound_leads supabase lid text w1) as Hs.
      destruct (salvar_mensagem supabase lid text "outbound" w1) as [[[]|e] w2];
        simpl in Hs |- *; congruence.
    + exact Hl.
Qed.

(** ** The verification handshake *)

(** X26. The handshake succeeds on the configured secret: a [GET] whose
    mode is "subscribe" and whose token is the verification token, the
    token not being empty, is answered 200 with the challenge of the
    request. *)
Theorem webhook_get_verifies :
  forall VERIFY_TOKEN args,
    VERIFY_TOKEN <> "" ->
    args_get "hub.mode" args = Some "subscribe" ->
    args_get "hub.verify_token" args = Some VERIFY_TOKEN ->
    webhook_get VERIFY_TOKEN args = (args_get "hub.challenge" args, 200).
Proof.
  intros V args HV Hmode Htoken. unfold webhook_get.
  rewrite Hmode, Htoken. simpl.
  apply String.eqb_neq in HV. rewrite HV, String.eqb_refl. reflexivity.
Qed.

Lemma webhook_get_verifies_witness :
  webhook_get (verify_token None)
              [("hub.mode", "subscribe"); ("hub.verify_token", "face_doctor_segredo");
               ("hub.challenge", "1158201444")]
  = (Some "1158201444", 200).
Proof.
  apply (webhook_get_verifies (verify_token None)
           [("hub.mode", "subscribe"); ("hub.verify_token", "face_doctor_segredo");
            ("hub.challenge", "1158201444")]).
  - discriminate.
  - reflexivity.
  - reflexivity.
Defined.

(** X27. A [GET] that names a mode and a token, one of them wrong, is
    refused with status 403 and the challenge is not returned. *)
Theorem webhook_get_rejects :
  forall VERIFY_TOKEN args mode token,
    args_get "hub.mode" args = Some mode ->
    args_get "hub.verify_token" args = Some token ->
    mode <> "" ->
    token <> "" ->
    mode <> "subscribe" \/ token <> VERIFY_TOKEN ->
    webhook_get VERIFY_TOKEN args = (Some "Token inválido", 403).
Proof.
  intros V args mode token Hmode Htoken Hm Ht Hwrong. unfold webhook_get.
  rewrite Hmode, Htoken. simpl.
  apply String.eqb_neq in Hm, Ht. rewrite Hm, Ht. simpl.
  destruct Hwrong as [H | H]; apply String.eqb_neq in H; rewrite H;
    [reflexivity | rewrite andb_false_r; reflexivity].
Qed.

Lemma webhook_get_rejects_witness :
  webhook_get "face_doctor_segredo"
              [("hub.mode", "subscribe"); ("hub.verify_token", "guess");
               ("hub.challenge", "1158201444")]
  = (Some "Token inválido", 403).
Proof.
  apply (webhook_get_rejects "face_doctor_segredo" _ "subscribe" "guess");
    try reflexivity; try discriminate.
  right. discriminate.
Defined.

(** X28. The challenge is echoed to the holder of the secret only: if a
    [GET] is answered 200 with anything but the greeting, then its mode
    was "subscribe", its token was the verification token, and that token
    is not empty (an empty configured secret verifies no one). *)
Theorem webhook_get_echo_needs_token :
  forall VERIFY_TOKEN args body,
    webhook_get VERIFY_TOKEN args = (body, 200) ->
    body <> Some "Hello World" ->
    args_get "hub.mode" args = Some "subscribe" /\
    args_get "hub.verify_token" args = Some VERIFY_TOKEN /\
    VERIFY_TOKEN <> "" /\
    body = args_get "hub.challenge" args.
Proof.
  intros V args body. unfold webhook_get.
  destruct (args_get "hub.mode" args) as [mode|];
    destruct (args_get "hub.verify_token" args) as [token|]; simpl;
    try (intros [= <-] H; exfalso; apply H; reflexivity).
  - destruct (String.eqb mode "") eqn:Em; simpl;
      [intros [= <-] H; exfalso; apply H; reflexivity|].
    destruct (String.eqb token "") eqn:Et; simpl;
      [intros [= <-] H; exfalso; apply H; reflexivity|].
    destruct (String.eqb mode "subscribe") eqn:Es; simpl; [|discriminate].
    destruct (String.eqb token V) eqn:Ev; simpl; [|discriminate].
    intros [= <-] _.
    apply String.eqb_eq in Es, Ev. subst mode token.
    apply String.eqb_neq in Et. repeat split. exact Et.
  - destruct (String.eqb mode ""); simpl;
      intros [= <-] H; exfalso; apply H; reflexivity.
Qed.

Lemma webhook_get_echo_needs_token_witness :
  let args := [("hub.mode", "subscribe"); ("hub.verify_token", "face_doctor_segredo");
               ("hub.challenge", "1158201444")] in
  webhook_get "face_doctor_segredo" args = (Some "1158201444", 200) /\
  args_get "hub.verify_token" args = Some "face_doctor_segredo".
Proof.
  intros args. split; [reflexivity|].
  destruct (webhook_get_echo_needs_token "face_doctor_segredo" args
              (Some "1158201444") eq_refl) as (_ & Htoken & _).
  - discriminate.
  - exact Htoken.
Defined.

(** ** The one message the inbound endpoint processes *)

Ltac open_option :=
  repeat match goal with
         | H : if_some ?o _ = Some _ |- _ =>
             let E := fresh "E" in
             destruct o eqn:E; simpl if_some in H; [|discriminate H]
         | H : (if ?b then _ else _) = Some _ |- _ =>
             let E := fresh "E" in
             destruct b eqn:E; [|discriminate H]
         end.

Ltac open_field :=
  repeat match goal with
         | H : field _ ?v = Some _ |- _ =>
             is_var v; destruct v; simpl field in *; try discriminate H
         | H : head_of ?v = Some _ |- _ =>
             is_var v;
             let xs := fresh "xs" in
             destruct v as [ | | | | xs | ]; simpl head_of in *; try discriminate H;
             destruct xs; [discriminate H|];
             injection H as ->
         end.

(** The walk of the handler ends on the message at [0][0][0]. *)
Lemma read_event_first_text_message data numero corpo nome :
  first_text_message data = Some (numero, corpo, nome) ->
  read_event data = Ok (TextMessage numero corpo nome).
Proof.
  unfold first_text_message, first_value. intros H.
  open_option. injection H as -> -> ->. open_field.
  unfold read_event.
  repeat first
    [ progress unfold Py.has_key
    | progress simpl
    | match goal with
      | E : Py.lookup _ _ = Some _ |- _ => rewrite E
      | E : Py.eqb _ _ = true |- _ => rewrite E
      end ].
  reflexivity.
Qed.

(** C10. Of a payload the inbound endpoint processes one message, the
    first message of the first change of the first entry, and drops the
    others.  It processes that one: when the message at [0][0][0] is a
    text message and the store is configured and answers, the request is
    acknowledged and the message is recorded under the lead of its
    sender, the first lead the store has for the address if there is
    one, and else a lead created for it; this one row, carrying the text
    of that message, is all that is added, and nothing is logged.  It
    drops the others: on any payload the endpoint answers, and leaves
    the leads, the messages and the log (the payload captured in an
    error entry apart), exactly as on the payload cut down to the
    message at [0][0][0], and it adds at most one message row, however
    many entries, changes and messages the payload carries. *)
Theorem webhook_post_first_message_only :
  forall supabase data w,
    let run := webhook_post supabase data w in
    let cut := webhook_post supabase (first_only data) w in
    (fst run = fst cut /\
     leads (snd run) = leads (snd cut) /\
     messages (snd run) = messages (snd cut) /\
     map without_payload (system_logs (snd run)) =
       map without_payload (system_logs (snd cut)) /\
     (messages (snd run) = messages w \/
      exists m, messages (snd run) = (messages w ++ [m])%list)) /\
    (forall numero corpo nome,
        first_text_message data = Some (numero, corpo, nome) ->
        supabase = true ->
        store_faults w = [] ->
        fst run = Ok acknowledged /\
        (forall found others,
            filter (fun l => Py.eqb (lead_phone l) numero) (leads w) = found :: others ->
            Py.truthy (lead_id found) = true ->
            messages (snd run) =
              (messages w ++
               [mkMessage (lead_id found) corpo "inbound" "text" "read"])%list /\
            leads (snd run) =
              map (fun l => if Py.eqb (lead_id l) (lead_id found)
                            then Store.touch corpo l else l) (leads w) /\
            system_logs (snd run) = system_logs w) /\
        (unknown numero w ->
         pipeline_stages w <> [] ->
         stage_keys_set w ->
         lead_seq w <> 0 ->
         exists st,
           least_stage st w /\
           messages (snd run) =
             (messages w ++
              [mkMessage (JInt (lead_seq w)) corpo "inbound" "text" "read"])%list /\
           leads (snd run) =
             map (fun l => if Py.eqb (lead_id l) (JInt (lead_seq w))
                           then Store.touch corpo l else l)
                 (leads w ++ [first_lead w numero nome st]) /\
           system_logs (snd run) = system_logs w)).
Proof.
  intros supabase data w run cut. split.
  - exact (webhook_post_cut supabase data w).
  - intros numero corpo nome Hfirst -> Hcalm. subst run. clear cut.
    pose proof (read_event_first_text_message data numero corpo nome Hfirst) as Hread.
    split; [|split].
    + rewrite (webhook_post_text _ _ _ _ _ _ Hread).
      destruct (deliver_never_raises true numero corpo nome w) as ([] & w' & E).
      rewrite (bind_ok _ _ _ _ _ E). reflexivity.
    + intros found others Hfound Hkey.
      destruct (webhook_post_known_run data numero corpo nome w found others
                  Hread Hcalm Hfound Hkey) as (w' & E & Hm & Hl & Hlog & _).
      rewrite E. simpl. split; [exact Hm|]. split; [exact Hl | exact Hlog].
    + intros Hnew Hstages Hkeys Hseq.
      destruct (Store.order_by_position (pipeline_stages w)) as [|st rest] eqn:E.
      { exfalso. exact (order_by_position_nonempty _ Hstages E). }
      pose proof (first_stage_least w st rest E) as Hleast.
      assert (Hkey : Py.truthy (stage_id st) = true) by (apply Hkeys, Hleast).
      destruct (webhook_post_first_run data numero corpo nome w st rest
                  Hread Hcalm Hnew E Hkey Hseq) as (w' & Erun & Hm & Hl & Hlog & _).
      exists st. rewrite Erun. simpl.
      split; [exact Hleast|]. split; [exact Hm|]. split; [exact Hl | exact Hlog].
Qed.

Lemma webhook_post_first_message_only_witness :
  first_text_message Batch.payload = Some (JStr "+15551234", JStr "Hello", JStr "Ana") /\
  let run := webhook_post true Batch.payload Examples.with_ana in
  fst run = Ok acknowledged /\
  messages (snd run) = [mkMessage (JInt 42) (JStr "Hello") "inbound" "text" "read"] /\
  leads (snd run) = [Store.touch (JStr "Hello") Examples.ana] /\
  system_logs (snd run) = [].
Proof.
  split; [reflexivity|].
  destruct (proj2 (webhook_post_first_message_only true Batch.payload Examples.with_ana)
              (JStr "+15551234") (JStr "Hello") (JStr "Ana") eq_refl eq_refl eq_refl)
    as (Hack & Hknown & _).
  destruct (Hknown Examples.ana [] eq_refl eq_refl) as (Hm & Hl & Hlog).
  cbv zeta. split; [exact Hack|]. split; [exact Hm|]. split; [exact Hl | exact Hlog].
Defined.
